(** * jina.logging.profile: timing, memory and progress helpers

    A shallow embedding of [src/jina/logging/profile.py].  Python floats are
    the kernel's binary64 floats, dictionaries are [gmap]s, and every method
    is a computation in a small state-and-exception monad over the receiver
    object and the outside world (clock, process memory, standard output and
    the loggers). *)

From Stdlib Require Import ZArith List Ascii Floats.
From stdpp Require Import gmap strings pretty.
Import ListNotations.

Local Open Scope Z_scope.

(** ** The Python runtime the module relies on *)

Module Py.

(** Built-in exceptions the module can raise, and [Raised] for whatever a
    user-supplied callable raises. *)
Inductive exn : Type :=
| IndexError
| ZeroDivisionError
| ValueError
| OverflowError
| AttributeError
| Raised (name : string).

Inductive Result (A : Type) : Type :=
| Ok (a : A)
| Err (e : exn).
Arguments Ok {A} a.
Arguments Err {A} e.

(** What reaches [sys.stdout]: the chunks written, and the flushes. *)
Inductive out_event : Type :=
| Write (s : string)
| Flush.

#[global] Instance out_event_eq_dec : EqDecision out_event.
Proof. solve_decision. Defined.

(** The world outside the objects.  [clock] and [maxrss] give what the
    [n]-th observation of [time.perf_counter()] and of
    [resource.getrusage(RUSAGE_SELF).ru_maxrss] returns; [ticks] counts the
    observations made so far.  [log] holds the [info] lines, each with the
    name of the logger that took it. *)
Record World : Type := mkWorld {
  clock : nat -> float;
  maxrss : nat -> Z;
  ticks : nat;
  stdout : list out_event;
  log : list (string * string)
}.

(** A method on a receiver of type [O]: it may fail, and the mutations made
    before the failure stay. *)
Definition M (O A : Type) : Type := O * World -> Result A * (O * World).

Definition ret {O A} (a : A) : M O A := fun s => (Ok a, s).

Definition bind {O A B} (c : M O A) (k : A -> M O B) : M O B :=
  fun s =>
    match c s with
    | (Ok a, s') => k a s'
    | (Err e, s') => (Err e, s')
    end.

Definition raise {O A} (e : exn) : M O A := fun s => (Err e, s).

(** The outcome of a computation that touches no state. *)
Definition lift {O A} (r : Result A) : M O A := fun s => (r, s).

Definition get_self {O} : M O O := fun s => (Ok (fst s), s).

Definition modify_self {O} (f : O -> O) : M O unit :=
  fun s => (Ok tt, (f (fst s), snd s)).

(** One more observation of the environment has been made. *)
Definition tick (w : World) : World :=
  mkWorld (clock w) (maxrss w) (S (ticks w)) (stdout w) (log w).

Definition out (ev : out_event) (w : World) : World :=
  mkWorld (clock w) (maxrss w) (ticks w) (stdout w ++ [ev]) (log w).

Definition logged (logger msg : string) (w : World) : World :=
  mkWorld (clock w) (maxrss w) (ticks w) (stdout w) (log w ++ [(logger, msg)]).

Definition perf_counter {O} : M O float :=
  fun s => (Ok (clock (snd s) (ticks (snd s))), (fst s, tick (snd s))).

Definition ru_maxrss {O} : M O Z :=
  fun s => (Ok (maxrss (snd s) (ticks (snd s))), (fst s, tick (snd s))).

Definition emit {O} (ev : out_event) : M O unit :=
  fun s => (Ok tt, (fst s, out ev (snd s))).

Definition stdout_write {O} (s : string) : M O unit := emit (Write s).
Definition stdout_flush {O} : M O unit := emit Flush.

(** [print(x, end=e, flush=True)]: two writes, then the flush. *)
Definition print_flush {O} (x e : string) : M O unit :=
  bind (stdout_write x) (fun _ => bind (stdout_write e) (fun _ => stdout_flush)).

Definition logger_info {O} (logger msg : string) : M O unit :=
  fun s => (Ok tt, (fst s, logged logger msg (snd s))).

(** The text a terminal has received. *)
Fixpoint written (evs : list out_event) : string :=
  match evs with
  | [] => ""
  | Write s :: r => s +:+ written r
  | Flush :: r => written r
  end.

(** *** Lists used as stacks: [l.append(x)], [l[-1]], [l.pop()] *)

Definition list_append {A} (l : list A) (x : A) : list A := l ++ [x].

Definition list_pop {A} (l : list A) : option (list A * A) :=
  match rev l with
  | [] => None
  | x :: r => Some (rev r, x)
  end.

Definition list_top {A} (l : list A) : option A :=
  match list_pop l with
  | Some (_, x) => Some x
  | None => None
  end.

(** *** [collections.defaultdict(float)] *)

Definition dd_default : float := 0%float.

(** [d[k]] as an expression: a missing key is first stored with the
    default. *)
Definition dd_get (d : gmap string float) (k : string)
  : float * gmap string float :=
  match d !! k with
  | Some v => (v, d)
  | None => (dd_default, <[k := dd_default]> d)
  end.

(** [d[k] += v] *)
Definition dd_iadd (d : gmap string float) (k : string) (v : float)
  : gmap string float :=
  let '(old, d') := dd_get d k in <[k := (old + v)%float]> d'.

(** *** Float arithmetic beyond the primitive operations *)

Definition float_of_Z (z : Z) : float :=
  SF2Prim (binary_normalize prec emax z 0 false).

(** Truth value of a float: everything but the zeros. *)
Definition truthy (x : float) : bool := negb (PrimFloat.eqb x 0).

(** [max(a, b)] keeps [a] unless [b] is greater. *)
Definition py_max (a b : float) : float :=
  if PrimFloat.ltb a b then b else a.

(** [math.floor]. *)
Definition floor (x : float) : Result Z :=
  match Prim2SF x with
  | S754_nan => Err ValueError
  | S754_infinity _ => Err OverflowError
  | S754_zero _ => Ok 0
  | S754_finite s m e =>
      let n := if s then Z.neg m else Z.pos m in
      Ok (if (0 <=? e) then n * 2 ^ e else n / 2 ^ (- e))
  end.

(** C's [fmod]: the exact remainder, with the sign of the dividend. *)
Definition fmod (x y : float) : float :=
  match Prim2SF x, Prim2SF y with
  | S754_nan, _ | _, S754_nan => nan
  | S754_infinity _, _ => nan
  | _, S754_zero _ => nan
  | S754_zero _, _ => x
  | S754_finite _ _ _, S754_infinity _ => x
  | S754_finite sx mx ex, S754_finite _ my ey =>
      let e := Z.min ex ey in
      let r := (Z.pos mx * 2 ^ (ex - e)) mod (Z.pos my * 2 ^ (ey - e)) in
      if (r =? 0) then (if sx then (-0)%float else 0%float)
      else SF2Prim (binary_normalize prec emax (if sx then - r else r) e false)
  end.

(** [x % y] on floats: [fmod], moved to the sign of the divisor. *)
Definition float_rem (x y : float) : Result float :=
  if PrimFloat.eqb y 0 then Err ZeroDivisionError
  else
    let m := fmod x y in
    if truthy m then
      Ok (if xorb (PrimFloat.ltb y 0) (PrimFloat.ltb m 0) then (m + y)%float else m)
    else Ok (if PrimFloat.ltb y 0 then (-0)%float else 0%float).

(** [n / x] for an int [n] and a float [x]. *)
Definition int_truediv (n : Z) (x : float) : Result float :=
  if PrimFloat.eqb x 0 then Err ZeroDivisionError
  else Ok (float_of_Z n / x)%float.

End Py.

Import Py.

Declare Scope py_scope.
Delimit Scope py_scope with py.
Notation "x <- c ;; k" := (bind c (fun x => k))
  (at level 100, c at next level, right associativity) : py_scope.
Notation "c ;; k" := (bind c (fun _ => k))
  (at level 100, right associativity) : py_scope.

Local Open Scope py_scope.

(** ** [class TimeDict] *)

Module TimeDict.

Record t : Type := mk {
  accum_time : gmap string float;
  first_start_time : gmap string float;
  start_time : gmap string float;
  end_time : gmap string float;
  _key_stack : list string;
  _pending_reset : bool
}.

Definition __init__ : t := mk ∅ ∅ ∅ ∅ [] false.

Definition set_accum_time (v : gmap string float) (self : t) : t :=
  mk v (first_start_time self) (start_time self) (end_time self)
     (_key_stack self) (_pending_reset self).
Definition set_first_start_time (v : gmap string float) (self : t) : t :=
  mk (accum_time self) v (start_time self) (end_time self)
     (_key_stack self) (_pending_reset self).
Definition set_start_time (v : gmap string float) (self : t) : t :=
  mk (accum_time self) (first_start_time self) v (end_time self)
     (_key_stack self) (_pending_reset self).
Definition set_end_time (v : gmap string float) (self : t) : t :=
  mk (accum_time self) (first_start_time self) (start_time self) v
     (_key_stack self) (_pending_reset self).
Definition set_key_stack (v : list string) (self : t) : t :=
  mk (accum_time self) (first_start_time self) (start_time self)
     (end_time self) v (_pending_reset self).
Definition set_pending_reset (v : bool) (self : t) : t :=
  mk (accum_time self) (first_start_time self) (start_time self)
     (end_time self) (_key_stack self) v.

(** [td(key)] *)
Definition __call__ (key : string) : M t unit :=
  modify_self (fun self => set_key_stack (list_append (_key_stack self) key) self).

Definition __enter__ : M t unit :=
  self <- get_self ;;
  match list_top (_key_stack self) with
  | None => raise IndexError
  | Some _key =>
      (match first_start_time self !! _key with
       | None =>
           now <- perf_counter ;;
           modify_self (fun self =>
             set_first_start_time (<[_key := now]> (first_start_time self)) self)
       | Some _ => ret tt
       end) ;;
      now <- perf_counter ;;
      modify_self (fun self => set_start_time (<[_key := now]> (start_time self)) self)
  end.

Definition reset : M t unit :=
  self <- get_self ;;
  match _key_stack self with
  | _ :: _ => modify_self (set_pending_reset true)
  | [] => modify_self (fun _ => mk ∅ ∅ ∅ ∅ [] false)
  end.

(** The first three statements of [__exit__]: pop, stamp, accumulate. *)
Definition pop_and_accumulate : M t string :=
  self <- get_self ;;
  match list_pop (_key_stack self) with
  | None => raise IndexError
  | Some (rest, _key) =>
      modify_self (set_key_stack rest) ;;
      now <- perf_counter ;;
      modify_self (fun self => set_end_time (<[_key := now]> (end_time self)) self) ;;
      modify_self (fun self =>
        let '(e, ends) := dd_get (end_time self) _key in
        let '(s, starts) := dd_get (start_time self) _key in
        set_accum_time (dd_iadd (accum_time self) _key (e - s)%float)
          (set_start_time starts (set_end_time ends self))) ;;
      ret _key
  end.

(** The object those three statements leave behind when the stack was
    [rest ++ [key]] and the clock is read in world [w]. *)
Definition popped (self : t) (w : World) (rest : list string) (key : string) : t :=
  let now := clock w (ticks w) in
  let started := dd_get (start_time self) key in
  mk (dd_iadd (accum_time self) key (now - fst started)%float)
     (first_start_time self) (snd started)
     (<[key := now]> (end_time self)) rest (_pending_reset self).

Definition __exit__ : M t unit :=
  _ <- pop_and_accumulate ;;
  self <- get_self ;;
  if _pending_reset self then reset else ret tt.

(** The calls a client can make, and a run of several of them; the run
    stops at the first exception. *)
Inductive call : Type :=
| Push (key : string)
| Enter
| Exit
| Reset.

Definition perform (c : call) : M t unit :=
  match c with
  | Push key => __call__ key
  | Enter => __enter__
  | Exit => __exit__
  | Reset => reset
  end.

Fixpoint run (cs : list call) : M t unit :=
  match cs with
  | [] => ret tt
  | c :: r => perform c ;; run r
  end.

(** Two nested scopes on one key:
    [with td(key): with td(key): ...]. *)
Definition nested (key : string) : list call :=
  [Push key; Enter; Push key; Enter; Exit; Exit].

(** [accum_time[key]] as a reader sees it: the default when absent. *)
Definition accumulated (self : t) (key : string) : float :=
  default dd_default (accum_time self !! key).

End TimeDict.

(** ** Text: control characters, repetition, padding, numbers *)

Module Text.

Definition chr (c : ascii) : string := String c "".
Definition CR : string := chr "013".
Definition TAB : string := chr "009".
Definition LF : string := chr "010".
Definition ESC : string := chr "027".

(** [s * n]: empty when [n] is not positive. *)
Definition repeat (s : string) (n : Z) : string :=
  Nat.iter (Z.to_nat n) (fun acc => s +:+ acc) "".

(** [len(s)] counts code points: every byte but the UTF-8 continuations. *)
Fixpoint len (s : string) : nat :=
  match s with
  | EmptyString => 0
  | String c r =>
      let n := nat_of_ascii c in
      ((if (128 <=? n)%nat && (n <? 192)%nat then 0 else 1) + len r)%nat
  end.

(** The [{:>w}] format field. *)
Definition rjust (w : nat) (s : string) : string :=
  repeat " " (Z.of_nat (w - len s)) +:+ s.

(** [a or b] on strings: the first non-empty one. *)
Definition str_or (a : option string) (b : string) : string :=
  match a with
  | Some (String c r) => String c r
  | _ => b
  end.

(** [n * 2^e] rounded to the nearest integer, ties to even. *)
Definition round_half_even (n e : Z) : Z :=
  if (0 <=? e) then n * 2 ^ e
  else
    let d := 2 ^ (- e) in
    let q := n / d in
    let r := n mod d in
    if (2 * r <? d) then q
    else if (d <? 2 * r) then q + 1
    else if Z.even q then q else q + 1.

Definition digits (n : Z) : string := pretty (Z.abs n).

(** The [{:.pf}] format field. *)
Definition format_fixed (p : nat) (x : float) : string :=
  match Prim2SF x with
  | S754_nan => "nan"
  | S754_infinity s => if s then "-inf" else "inf"
  | sf =>
      let '(s, q) :=
        match sf with
        | S754_finite s m e => (s, round_half_even (Z.pos m * 10 ^ Z.of_nat p) e)
        | S754_zero s => (s, 0)
        | _ => (false, 0)
        end in
      let scale := 10 ^ Z.of_nat p in
      let frac := digits (q mod scale) in
      (if s then "-" else "") +:+ digits (q / scale) +:+
      (match p with
       | O => ""
       | _ => "." +:+ repeat "0" (Z.of_nat (p - String.length frac)) +:+ frac
       end)
  end.

Definition two_digits (n : Z) : string :=
  (if (n <? 10) then "0" else "") +:+ digits n.

(** [str(datetime.timedelta(seconds=x)).split('.')[0]]: the duration is
    rounded to whole microseconds, split into days and seconds of the day,
    and printed without its microseconds. *)
Definition timedelta_str (x : float) : Result string :=
  match Prim2SF x with
  | S754_nan => Err ValueError
  | S754_infinity _ => Err OverflowError
  | sf =>
      let us :=
        match sf with
        | S754_finite s m e =>
            round_half_even ((if s then Z.neg m else Z.pos m) * 1000000) e
        | _ => 0
        end in
      let days := us / 86400000000 in
      let secs := (us mod 86400000000) / 1000000 in
      if (999999999 <? Z.abs days) then Err OverflowError
      else
        Ok ((if (days =? 0) then ""
             else (if (days <? 0) then "-" else "") +:+ digits days +:+
                  (if (Z.abs days =? 1) then " day, " else " days, ")) +:+
            digits (secs / 3600) +:+ ":" +:+ two_digits ((secs / 60) mod 60)
            +:+ ":" +:+ two_digits (secs mod 60))
  end.

End Text.

(** ** What the module imports from the rest of the package *)

(** [jina.helper] is not part of the sources at hand, and neither is the
    shortest-digits conversion behind [str(float)]; both are parameters. *)
Class Externals : Type := {
  colored : string -> option string -> list string -> string;
  get_readable_size : float -> string;
  get_readable_time : float -> string;
  float_str : float -> string
}.

(** Stand-ins to run examples with.  [colored] leaves the text alone, as
    the helper does with [JINA_LOG_NO_COLOR] set; the three texts are plain
    fixed-point renderings, not the package's own wording nor the digits
    Python's [str] would choose. *)
Definition plain_externals : Externals := {|
  colored := fun text _ _ => text;
  get_readable_size := fun x => Text.format_fixed 1 x +:+ " Bytes";
  get_readable_time := fun x => Text.format_fixed 0 x +:+ " seconds";
  float_str := Text.format_fixed 6
|}.

(** ** [class TimeContext] *)

Module TimeContext.

(** [_logger] holds the name of the logger, when there is one;
    [start] and [readable_duration] are attributes that exist only once
    [__enter__], respectively [__exit__], has assigned them. *)
Record t : Type := mk {
  task_name : string;
  _logger : option string;
  duration : float;
  start : option float;
  readable_duration : option string
}.

Definition __init__ (task_name : string) (logger : option string) : t :=
  mk task_name logger 0%float None None.

Definition set_duration (v : float) (self : t) : t :=
  mk (task_name self) (_logger self) v (start self) (readable_duration self).
Definition set_start (v : float) (self : t) : t :=
  mk (task_name self) (_logger self) (duration self) (Some v)
     (readable_duration self).
Definition set_readable_duration (v : string) (self : t) : t :=
  mk (task_name self) (_logger self) (duration self) (start self) (Some v).

(** A class deriving from [TimeContext]: where its [TimeContext] fields
    live, and the two messages it may override. *)
Class Scoped (O : Type) : Type := {
  base : O -> t;
  with_base : t -> O -> O;
  _enter_msg : M O unit;
  _exit_msg : M O unit
}.

(** Reading an attribute that may not have been assigned yet. *)
Definition attr {O A} (a : option A) : M O A :=
  match a with
  | Some v => ret v
  | None => raise AttributeError
  end.

Section Methods.
Context {ext : Externals} {O : Type} {scope : Scoped O}.

Definition __enter__ : M O unit :=
  t0 <- perf_counter ;;
  modify_self (fun self => with_base (set_start t0 (base self)) self) ;;
  _enter_msg.

Definition now : M O float :=
  t1 <- perf_counter ;;
  self <- get_self ;;
  t0 <- attr (start (base self)) ;;
  ret (t1 - t0)%float.

Definition __exit__ : M O unit :=
  d <- now ;;
  modify_self (fun self => with_base (set_duration d (base self)) self) ;;
  modify_self (fun self =>
    with_base
      (set_readable_duration (get_readable_time (duration (base self)))
         (base self)) self) ;;
  _exit_msg.
End Methods.

Section Own.
Context {ext : Externals}.

Definition enter_msg : M t unit :=
  self <- get_self ;;
  match _logger self with
  | Some logger => logger_info logger (task_name self +:+ "...")
  | None => print_flush (task_name self) (" ..." +:+ Text.TAB)
  end.

Definition took (self : t) (readable : string) : string :=
  task_name self +:+ " takes " +:+ readable +:+ " (" +:+
  Text.format_fixed 2 (duration self) +:+ "s)".

Definition exit_msg : M t unit :=
  self <- get_self ;;
  readable <- attr (readable_duration self) ;;
  match _logger self with
  | Some logger => logger_info logger (took self readable)
  | None => print_flush (colored (took self readable) None []) Text.LF
  end.

#[global] Instance scoped : Scoped t := {|
  base := fun self => self;
  with_base := fun b _ => b;
  _enter_msg := enter_msg;
  _exit_msg := exit_msg
|}.
End Own.

End TimeContext.

(** ** [class ProgressBar(TimeContext)] *)

Module ProgressBar.

(** [message_on_done]: absent, a literal, or a function to call. *)
Inductive message_on_done : Type :=
| NoMessage
| Literal (s : string)
| Callable (f : unit -> string).

Record t : Type := mk {
  context : TimeContext.t;
  _bars_on_row : Z;
  _completed_progress : float;
  _last_rendered_progress : float;
  _num_update_called : Z;
  _on_done : message_on_done
}.

Definition col_width : Z := 100.
Definition clear_line : string :=
  Text.CR +:+ Text.repeat " " col_width +:+ Text.CR.

Definition __init__ (description : string) (on_done : message_on_done) : t :=
  mk (TimeContext.__init__ description None) 40 0%float 0%float 0 on_done.

Definition set_context (v : TimeContext.t) (self : t) : t :=
  mk v (_bars_on_row self) (_completed_progress self)
     (_last_rendered_progress self) (_num_update_called self) (_on_done self).
Definition set_completed_progress (v : float) (self : t) : t :=
  mk (context self) (_bars_on_row self) v
     (_last_rendered_progress self) (_num_update_called self) (_on_done self).
Definition set_last_rendered_progress (v : float) (self : t) : t :=
  mk (context self) (_bars_on_row self) (_completed_progress self)
     v (_num_update_called self) (_on_done self).
Definition set_num_update_called (v : Z) (self : t) : t :=
  mk (context self) (_bars_on_row self) (_completed_progress self)
     (_last_rendered_progress self) v (_on_done self).

(** The three numbers a render derives from the progress counter. *)
Record bars : Type := mkBars {
  num_bars : float;
  num_fullbars : Z;
  num_halfbars : Z
}.

Definition num_bars_of (bars_on_row : Z) (completed : float) : Result float :=
  match float_rem completed (float_of_Z bars_on_row) with
  | Err e => Err e
  | Ok rem =>
      Ok (if negb (truthy rem) && truthy completed
          then float_of_Z bars_on_row
          else py_max rem 1)
  end.

(** The bar count in the words of the specification: the remainder, except
    that a positive multiple of the row is a full row, and any other
    non-positive remainder is raised to 1. *)
Definition num_bars_as_specified (bars_on_row : Z) (completed : float)
  : Result float :=
  match float_rem completed (float_of_Z bars_on_row) with
  | Err e => Err e
  | Ok rem =>
      Ok (if PrimFloat.eqb rem 0 && PrimFloat.ltb 0 completed
          then float_of_Z bars_on_row
          else if PrimFloat.leb rem 0 then py_max rem 1 else rem)
  end.

Definition bar_counts (bars_on_row : Z) (completed : float) : Result bars :=
  match num_bars_of bars_on_row completed with
  | Err e => Err e
  | Ok nb =>
      match floor nb with
      | Err e => Err e
      | Ok nf =>
          Ok (mkBars nb nf
                (if PrimFloat.leb (nb - float_of_Z nf) 0.5 then 1 else 0))
      end
  end.

(** Whether [update] returns before drawing anything. *)
Definition throttled (completed last_rendered : float) (all_completed : bool)
  : bool :=
  PrimFloat.ltb (PrimFloat.abs (completed - last_rendered)) 0.5
  && negb all_completed.

Definition half_bar : string := "╸".
Definition full_bar : string := "━".

Section Methods.
Context {ext : Externals}.

(** The text of one render: ['{:>10} {:<}{:<} {} {} {}'.format(...)]. *)
Definition bar_line (description_str : string) (b : bars) (bars_on_row : Z)
    (all_completed : bool) (time_str speed_str msg_str : string) : string :=
  let bar_color := if all_completed then "yellow" else "green" in
  let unfinished_bar_color := if all_completed then "yellow" else "green" in
  Text.rjust 10 description_str +:+ " " +:+
  (colored (Text.repeat full_bar (num_fullbars b)) (Some bar_color) [] +:+
   colored half_bar
     (Some (if (num_halfbars b =? 0) then unfinished_bar_color else bar_color))
     []) +:+
  colored (Text.repeat full_bar (bars_on_row - num_fullbars b))
    (Some unfinished_bar_color) ["dark"] +:+
  " " +:+ colored time_str (Some "cyan") [] +:+ " " +:+ speed_str +:+ " " +:+
  msg_str.

(** The receiver once [update] has advanced its two counters. *)
Definition counted (progress : float) (first_enter : bool) (self : t) : t :=
  set_completed_progress (_completed_progress self + progress)%float
    (set_num_update_called
       (_num_update_called self + (if first_enter then 0 else 1)) self).

(** The time label of a render. *)
Definition time_label (first_enter : bool) (elapsed : float) : Result string :=
  if first_enter then Ok "-:--:--" else Text.timedelta_str elapsed.

(** The rate label of a render. *)
Definition speed_label (first_enter : bool) (num_update_called : Z)
    (elapsed : float) : Result string :=
  if first_enter then Ok "estimating..."
  else
    match int_truediv num_update_called elapsed with
    | Err e => Err e
    | Ok rate => Ok (Text.format_fixed 1 rate +:+ " step/s")
    end.

Definition update (progress : float) (description message : option string)
    (all_completed first_enter : bool) : M t unit :=
  modify_self (counted progress first_enter) ;;
  self <- get_self ;;
  if throttled (_completed_progress self) (_last_rendered_progress self)
       all_completed
  then ret tt
  else
    modify_self (fun self =>
      set_last_rendered_progress (_completed_progress self) self) ;;
    stdout_write clear_line ;;
    t1 <- perf_counter ;;
    t0 <- TimeContext.attr (TimeContext.start (context self)) ;;
    let elapsed := (t1 - t0)%float in
    b <- lift (bar_counts (_bars_on_row self) (_completed_progress self)) ;;
    time_str <- lift (time_label first_enter elapsed) ;;
    speed_str <- lift (speed_label first_enter (_num_update_called self) elapsed) ;;
    let description_str :=
      Text.str_or description
        (Text.str_or (Some (TimeContext.task_name (context self))) "") in
    let msg_str := Text.str_or message "" in
    stdout_write
      (bar_line description_str b (_bars_on_row self) all_completed
         time_str speed_str msg_str) ;;
    stdout_flush.

(** Plain calls [update(p)], one for each [p] in turn. *)
Fixpoint advance (ps : list float) : M t unit :=
  match ps with
  | [] => ret tt
  | p :: r => update p None None false false ;; advance r
  end.

Definition enter_msg : M t unit :=
  update 1%float None None false true.

Definition steps_done (self : t) (readable : string) : string :=
  Text.ESC +:+ "[K" +:+ Text.format_fixed 0 (_completed_progress self) +:+
  " steps done in " +:+ readable.

(** The default final message in the words of the specification:
    ["{completed_progress:.0f} steps done in {readable_duration}"]. *)
Definition summary_as_specified (self : t) (readable : string) : string :=
  Text.format_fixed 0 (_completed_progress self) +:+ " steps done in " +:+ readable.

Definition final_message (self : t) (readable : string) : string :=
  match _on_done self with
  | NoMessage | Literal EmptyString => steps_done self readable
  | Literal s => s
  | Callable f => f tt
  end.

Definition exit_msg : M t unit :=
  self <- get_self ;;
  (if PrimFloat.ltb 1 (_last_rendered_progress self) then
     readable <-
       TimeContext.attr (TimeContext.readable_duration (context self)) ;;
     let final_msg := final_message self readable in
     update 0%float None None true false ;;
     stdout_write final_msg ;;
     stdout_write Text.LF
   else stdout_write clear_line) ;;
  stdout_flush.

#[global] Instance scoped : TimeContext.Scoped t := {|
  TimeContext.base := context;
  TimeContext.with_base := set_context;
  TimeContext._enter_msg := enter_msg;
  TimeContext._exit_msg := exit_msg
|}.

Definition __enter__ : M t unit := TimeContext.__enter__.
Definition __exit__ : M t unit := TimeContext.__exit__.
End Methods.

End ProgressBar.

(** ** The module-level functions *)

Module Profile.

(** [used_memory(unit)]: peak resident set size over [unit]. *)
Definition used_memory {O} (unit : Z) : M O float :=
  rss <- ru_maxrss ;;
  if (unit =? 0) then raise ZeroDivisionError
  else ret (float_of_Z rss / float_of_Z unit)%float.

Section WithExternals.
Context {ext : Externals}.

Definition used_memory_readable {O} : M O string :=
  m <- used_memory (O := O) 1 ;;
  ret (get_readable_size m).

Definition default_logger : string := "default".

(** The wrapper [profiling] returns; [func] stands for the wrapped
    callable already applied to its arguments, [qualname] for
    [func.__qualname__]. *)
Definition arg_wrapper {O R} (qualname : string) (func : M O R) : M O R :=
  start_t <- perf_counter ;;
  start_mem <- used_memory 1 ;;
  r <- func ;;
  end_t <- perf_counter ;;
  let elapsed := (end_t - start_t)%float in
  end_mem <- used_memory 1 ;;
  let level_prefix := "" in
  let mem_status :=
    "memory Δ " +:+ get_readable_size (end_mem - start_mem)%float +:+ " " +:+
    get_readable_size start_mem +:+ " -> " +:+ get_readable_size end_mem in
  logger_info default_logger
    (level_prefix +:+ " " +:+ qualname +:+ " time: " +:+ float_str elapsed
     +:+ "s " +:+ mem_status) ;;
  ret r.
End WithExternals.

End Profile.

(** ** Two worlds to run the code in *)

(** The clock reads 0, 1, 2, ... seconds at successive observations (and
    stays at 9 after the ninth), while the peak memory grows by a kilobyte
    per observation. *)
Definition ticking_world : World :=
  mkWorld (fun n => nth n [0; 1; 2; 3; 4; 5; 6; 7; 8]%float 9%float)
    (fun n => nth n [0; 1024; 2048; 3072; 4096; 5120; 6144; 7168] 8192)
    0 [] [].

(** The clock is too coarse to tell two observations apart. *)
Definition frozen_world : World :=
  mkWorld (fun _ => 5%float) (fun _ => 1024) 0 [] [].

(** A callable that has been at work for three clock readings and then
    either returns 7 or fails. *)
Definition busy (fails : bool) : M unit Z :=
  perf_counter ;; perf_counter ;; perf_counter ;;
  if fails then raise (Raised "RuntimeError") else ret 7.

(** [with ProgressBar('Working...') as bar: bar.update()] on the ticking
    clock, colours off. *)
Definition one_update_session : Result unit * (ProgressBar.t * World) :=
  (ProgressBar.__enter__ (ext := plain_externals) ;;
   ProgressBar.update (ext := plain_externals) 1 None None false false ;;
   ProgressBar.__exit__ (ext := plain_externals))
    (ProgressBar.__init__ "Working..." ProgressBar.NoMessage, ticking_world).

(** A bar that has drawn two units, about to leave, two seconds in. *)
Definition leaving_bar : ProgressBar.t :=
  ProgressBar.mk (TimeContext.mk "W" None 3 (Some 0%float) (Some "3 seconds"))
    40 2 2 1 ProgressBar.NoMessage.

Definition leaving_world : World := tick (tick ticking_world).

(** [with td('a'): with td('a'): pass] on a fresh [TimeDict] and the
    ticking clock: the object it leaves. *)
Definition nested_demo : TimeDict.t :=
  fst (snd (TimeDict.run (TimeDict.nested "a") (TimeDict.__init__, ticking_world))).

(** [TimeContext('loop').__enter__()] without a logger: what has been
    printed. *)
Definition loop_entered : string :=
  written
    (stdout
       (snd (snd (TimeContext.__enter__
                    (scope := TimeContext.scoped (ext := plain_externals))
                    (TimeContext.__init__ "loop" None, ticking_world))))).

(** A bar right after [__enter__] at clock reading [t0]. *)
Definition entered_bar (t0 : float) : ProgressBar.t :=
  ProgressBar.mk (TimeContext.mk "W" None 0 (Some t0) None)
    40 1 1 0 ProgressBar.NoMessage.

(** ** Further uses of a [TimeDict] *)

(** One scope after the other on the same key:
    [with td(key): ...] twice. *)
Definition sequential (key : string) : list TimeDict.call :=
  [TimeDict.Push key; TimeDict.Enter; TimeDict.Exit;
   TimeDict.Push key; TimeDict.Enter; TimeDict.Exit].

(** A scope on [inner] inside a scope on [outer]:
    [with td(outer): with td(inner): ...]. *)
Definition nested_pair (outer inner : string) : list TimeDict.call :=
  [TimeDict.Push outer; TimeDict.Enter; TimeDict.Push inner; TimeDict.Enter;
   TimeDict.Exit; TimeDict.Exit].

(** A reset can only be pending while a scope is open. *)
Definition pending_only_when_open (self : TimeDict.t) : Prop :=
  TimeDict._pending_reset self = true -> TimeDict._key_stack self <> [].

(** How many clock readings [__enter__] takes for [key]: two the first
    time, one afterwards. *)
Definition enter_readings (self : TimeDict.t) (key : string) : nat :=
  match TimeDict.first_start_time self !! key with
  | None => 2
  | Some _ => 1
  end.

(** ** The line the profiling wrapper logs *)

(** Peak memory in bytes as [used_memory(unit=1)] returns it. *)
Definition memory_sample (rss : Z) : float := (float_of_Z rss / float_of_Z 1)%float.

(** The text [arg_wrapper] hands to the default logger. *)
Definition profile_line {ext : Externals} (qualname : string)
    (elapsed start_mem end_mem : float) : string :=
  "" +:+ " " +:+ qualname +:+ " time: " +:+ float_str elapsed +:+ "s " +:+
  ("memory Δ " +:+ get_readable_size (end_mem - start_mem)%float +:+ " " +:+
   get_readable_size start_mem +:+ " -> " +:+ get_readable_size end_mem).

(** * Properties *)

(** ** Lists as stacks *)

Lemma list_pop_app {A} (l : list A) (x : A) : list_pop (l ++ [x]) = Some (l, x).
Proof.
  unfold list_pop. rewrite rev_app_distr. simpl. now rewrite rev_involutive.
Qed.

Lemma list_top_app {A} (l : list A) (x : A) : list_top (l ++ [x]) = Some x.
Proof. unfold list_top. now rewrite list_pop_app. Qed.

(** ** Default dictionaries *)

Lemma dd_get_value d k : fst (dd_get d k) = default dd_default (d !! k).
Proof. unfold dd_get. now destruct (d !! k). Qed.

Lemma dd_get_present d k v : d !! k = Some v -> dd_get d k = (v, d).
Proof. unfold dd_get. now intros ->. Qed.

Lemma dd_iadd_lookup d k v :
  dd_iadd d k v !! k = Some (default dd_default (d !! k) + v)%float.
Proof.
  unfold dd_iadd, dd_get. destruct (d !! k); simpl; now rewrite lookup_insert_eq.
Qed.

Lemma dd_iadd_lookup_ne d k k' v : k <> k' -> dd_iadd d k v !! k' = d !! k'.
Proof.
  intros Hne. unfold dd_iadd, dd_get. destruct (d !! k) eqn:E; simpl.
  - now rewrite lookup_insert_ne.
  - now rewrite !lookup_insert_ne.
Qed.

(** Two float literals are told apart by comparing them. *)
Lemma float_neq (x y : float) : PrimFloat.eqb x y = false -> PrimFloat.eqb y y = true -> x <> y.
Proof. intros Hxy Hyy ->. congruence. Qed.

(** ** TimeDict *)

Section TimeDictFacts.

Import TimeDict.

Lemma call_eq key self w :
  __call__ key (self, w) =
  (Ok tt, (set_key_stack (_key_stack self ++ [key]) self, w)).
Proof. reflexivity. Qed.

Lemma reset_open self w rest key :
  _key_stack self = rest ++ [key] ->
  reset (self, w) = (Ok tt, (set_pending_reset true self, w)).
Proof.
  intros Hs. unfold reset, bind, get_self, modify_self. simpl. rewrite Hs.
  now destruct rest.
Qed.

Lemma reset_idle self w :
  _key_stack self = [] -> reset (self, w) = (Ok tt, (__init__, w)).
Proof.
  intros Hs. unfold reset, bind, get_self, modify_self. simpl. now rewrite Hs.
Qed.

Lemma pop_and_accumulate_eq self w rest key :
  _key_stack self = rest ++ [key] ->
  pop_and_accumulate (self, w) = (Ok key, (popped self w rest key, tick w)).
Proof.
  intros Hs. unfold pop_and_accumulate, bind, get_self, modify_self, perf_counter.
  simpl. rewrite Hs, list_pop_app. simpl.
  rewrite (dd_get_present _ _ _ (lookup_insert_eq _ _ _)).
  unfold popped. now destruct (dd_get (start_time self) key).
Qed.

Lemma exit_eq self w rest key :
  _key_stack self = rest ++ [key] ->
  __exit__ (self, w) =
  (Ok tt,
   (if _pending_reset self
    then match rest with
         | [] => __init__
         | _ => popped self w rest key
         end
    else popped self w rest key, tick w)).
Proof.
  intros Hs. unfold __exit__, bind at 1.
  rewrite (pop_and_accumulate_eq _ _ _ _ Hs).
  unfold bind, get_self. simpl.
  destruct (_pending_reset self) eqn:Hp.
  - destruct rest as [|k0 rest'] using rev_ind.
    + now rewrite reset_idle.
    + rewrite (reset_open _ _ rest' k0) by reflexivity.
      unfold set_pending_reset, popped. simpl. rewrite Hp.
      now destruct (rest' ++ [k0]) eqn:E; [destruct rest'; discriminate|].
  - reflexivity.
Qed.

Lemma exit_empty self w :
  _key_stack self = [] -> __exit__ (self, w) = (Err IndexError, (self, w)).
Proof.
  intros Hs. unfold __exit__, pop_and_accumulate, bind, get_self. simpl.
  now rewrite Hs.
Qed.

Lemma enter_eq self w rest key :
  _key_stack self = rest ++ [key] ->
  __enter__ (self, w) =
  (Ok tt,
   match first_start_time self !! key with
   | None =>
       (set_start_time (<[key := clock w (S (ticks w))]> (start_time self))
          (set_first_start_time
             (<[key := clock w (ticks w)]> (first_start_time self)) self),
        tick (tick w))
   | Some _ =>
       (set_start_time (<[key := clock w (ticks w)]> (start_time self)) self,
        tick w)
   end).
Proof.
  intros Hs. unfold __enter__, bind, get_self. simpl.
  rewrite Hs, list_top_app.
  now destruct (first_start_time self !! key).
Qed.

End TimeDictFacts.

Section TimeDictClaims.

Import TimeDict.





(** C6 (as the code has it): [__exit__] with an empty key stack fails with
    the [IndexError] of [list.pop], before anything is changed. *)
Theorem exit_on_empty_stack_raises_IndexError self w :
  _key_stack self = [] ->
  __exit__ (self, w) = (Err IndexError, (self, w)).
Proof. apply exit_empty. Qed.

Lemma exit_on_empty_stack_raises_IndexError_witness :
  _key_stack __init__ = []
  /\ __exit__ (__init__, ticking_world) = (Err IndexError, (__init__, ticking_world)).
Proof.
  split; [reflexivity|].
  apply (exit_on_empty_stack_raises_IndexError __init__ ticking_world).
  reflexivity.
Defined.

(** C6 as stated fails: the error of an exit on a fresh [TimeDict] is not
    one named [StateError]. *)
Lemma exit_on_empty_stack_not_StateError :
  _key_stack __init__ = []
  /\ fst (__exit__ (__init__, ticking_world)) <> Err (Raised "StateError").
Proof.
  split; [reflexivity|]. rewrite exit_empty by reflexivity. discriminate.
Qed.

End TimeDictClaims.

Section NestedScopes.

Import TimeDict.

(** C1 (as the code has it): with no reset pending, an exit pops the top
    key, stamps [end_time[key]] and adds [end_time[key] - start_time[key]]
    to [accum_time[key]], leaving the other entries alone; and two nested
    scopes on one key add two differences to the one entry, both taken from
    the start stamp of the inner entry, which has replaced that of the
    outer. *)
Theorem exits_accumulate_from_latest_start self w key :
  _pending_reset self = false ->
  (forall rest,
      _key_stack self = rest ++ [key] ->
      exists self',
        __exit__ (self, w) = (Ok tt, (self', tick w))
        /\ _key_stack self' = rest
        /\ end_time self' !! key = Some (clock w (ticks w))
        /\ accum_time self' !! key =
           Some (accumulated self key
                 + (clock w (ticks w) - default dd_default (start_time self !! key)))%float
        /\ (forall other, key <> other ->
              accum_time self' !! other = accum_time self !! other))
  /\ (let d := match first_start_time self !! key with None => 2%nat | Some _ => 1%nat end in
      let inner_start := clock w (d + ticks w)%nat in
      let inner_end := clock w (1 + d + ticks w)%nat in
      let outer_end := clock w (2 + d + ticks w)%nat in
      exists self' w',
        run (nested key) (self, w) = (Ok tt, (self', w'))
        /\ _key_stack self' = _key_stack self
        /\ start_time self' !! key = Some inner_start
        /\ accum_time self' !! key =
           Some ((accumulated self key + (inner_end - inner_start))
                 + (outer_end - inner_start))%float).
Proof.
  intros Hp. split.
  - intros rest Hs. eexists. split; [apply (exit_eq _ _ rest key Hs)|].
    rewrite Hp. simpl. repeat split.
    + now rewrite lookup_insert_eq.
    + now rewrite dd_iadd_lookup, dd_get_value.
    + intros other Hne. now apply dd_iadd_lookup_ne.
  - unfold nested, run, perform.
    unfold bind at 1. rewrite call_eq.
    unfold bind at 1.
    rewrite (enter_eq _ _ (_key_stack self) key) by reflexivity.
    cbn [first_start_time set_key_stack].
    destruct (first_start_time self !! key) as [f0|] eqn:Hf.
    all: unfold bind at 1; rewrite call_eq.
    all: unfold bind at 1;
      rewrite (enter_eq _ _ (_key_stack self ++ [key]) key) by reflexivity.
    all: cbn [first_start_time set_key_stack set_start_time set_first_start_time].
    all: try rewrite Hf; try rewrite lookup_insert_eq.
    all: unfold bind at 1;
      rewrite (exit_eq _ _ (_key_stack self ++ [key]) key) by reflexivity.
    all: cbn [_pending_reset set_key_stack set_start_time set_first_start_time];
      rewrite Hp.
    all: unfold bind at 1;
      rewrite (exit_eq _ _ (_key_stack self) key) by reflexivity.
    all: cbn [_pending_reset popped set_key_stack set_start_time
              set_first_start_time]; rewrite Hp.
    all: eexists _, _; split; [reflexivity|].
    all: cbn [_key_stack start_time accum_time popped set_key_stack
              set_start_time set_first_start_time end_time tick ticks clock].
    all: rewrite !(dd_get_present _ _ _ (lookup_insert_eq _ _ _)).
    all: cbn [fst snd].
    all: rewrite !dd_iadd_lookup.
    all: repeat split.
    all: rewrite (dd_get_present _ _ _ (lookup_insert_eq _ _ _)).
    all: unfold accumulated; cbn [fst snd default Nat.add].
    all: rewrite ?lookup_insert_eq; reflexivity.
Qed.

Lemma exits_accumulate_from_latest_start_witness :
  _pending_reset __init__ = false
  /\ exists self' w',
       run (nested "a") (__init__, ticking_world) = (Ok tt, (self', w'))
       /\ accum_time self' !! "a" = Some 3%float.
Proof.
  split; [reflexivity|].
  destruct (proj2 (exits_accumulate_from_latest_start
                     __init__ ticking_world "a" eq_refl))
    as (self' & w' & Hrun & _ & _ & Hacc).
  exists self', w'. split; [exact Hrun|].
  rewrite Hacc. vm_compute. reflexivity.
Defined.

(** C1 as stated fails.  On a clock reading 0, 1, 2, ... the outer scope is
    entered at 1 and left at 4, the inner one entered at 2 and left at 3:
    the interiors last 3 and 1, but the entry holds 3, not their sum 4. *)
Lemma nested_scopes_not_sum_of_durations :
  accumulated nested_demo "a" = 3%float
  /\ ((clock ticking_world 4%nat - clock ticking_world 1%nat)
      + (clock ticking_world 3%nat - clock ticking_world 2%nat))%float = 4%float
  /\ accumulated nested_demo "a" <>
     ((clock ticking_world 4%nat - clock ticking_world 1%nat)
      + (clock ticking_world 3%nat - clock ticking_world 2%nat))%float.
Proof.
  split; [|split].
  - vm_compute. reflexivity.
  - vm_compute. reflexivity.
  - apply float_neq; vm_compute; reflexivity.
Qed.

End NestedScopes.

(** ** TimeContext *)

Section TimeContextClaims.

Context {ext : Externals}.

(** C8 (as the code has it): entering a [TimeContext] stores the clock
    reading as [start]; with a logger it logs the task name followed by
    three dots, without one it writes the task name, then a space, three
    dots and a tab, and flushes after both writes; no newline is written. *)
Theorem enter_stamps_and_announces (self : TimeContext.t) (w : World) :
  TimeContext.__enter__ (self, w) =
  (Ok tt,
   (TimeContext.set_start (clock w (ticks w)) self,
    match TimeContext._logger self with
    | Some logger => logged logger (TimeContext.task_name self +:+ "...") (tick w)
    | None =>
        out Flush
          (out (Write (" ..." +:+ Text.TAB))
             (out (Write (TimeContext.task_name self)) (tick w)))
    end)).
Proof.
  unfold TimeContext.__enter__, bind, perf_counter, modify_self. simpl.
  unfold TimeContext.enter_msg, bind, get_self. simpl.
  now destruct (TimeContext._logger self).
Qed.

End TimeContextClaims.

(** C8 as stated fails: what [with TimeContext('loop'):] prints on entry is
    not the task name directly followed by three dots and a tab. *)
Lemma enter_output_has_a_space :
  loop_entered = "loop ..." +:+ Text.TAB
  /\ loop_entered <> "loop" +:+ "..." +:+ Text.TAB.
Proof.
  split.
  - vm_compute. reflexivity.
  - vm_compute. discriminate.
Qed.

(** ** The profiling decorator *)

Section ProfilingClaims.

Context {ext : Externals} {O R : Type}.

(** C7: the wrapper reads the clock and the memory, then runs the wrapped
    callable; if that raises, the wrapper ends there with the same
    exception, and nothing is logged beyond what the callable logged; if it
    returns, the wrapper adds exactly one line to the default logger,
    writes nothing, and returns the same result. *)
Theorem profiling_logs_once_on_success
    (qualname : string) (func : M O R) (self : O) (w : World)
    (outcome : Result R) (s2 : O * World) :
  func (self, tick (tick w)) = (outcome, s2) ->
  match outcome with
  | Err e => Profile.arg_wrapper qualname func (self, w) = (Err e, s2)
  | Ok r =>
      let w2 := snd s2 in
      let start_mem := (float_of_Z (maxrss w (S (ticks w))) / float_of_Z 1)%float in
      let end_mem := (float_of_Z (maxrss w2 (S (ticks w2))) / float_of_Z 1)%float in
      let elapsed := (clock w2 (ticks w2) - clock w (ticks w))%float in
      let line :=
        "" +:+ " " +:+ qualname +:+ " time: " +:+ float_str elapsed +:+ "s " +:+
        ("memory Δ " +:+ get_readable_size (end_mem - start_mem)%float +:+ " " +:+
         get_readable_size start_mem +:+ " -> " +:+ get_readable_size end_mem) in
      exists w',
        Profile.arg_wrapper qualname func (self, w) = (Ok r, (fst s2, w'))
        /\ log w' = log w2 ++ [(Profile.default_logger, line)]
        /\ stdout w' = stdout w2
  end.
Proof.
  intros Hf.
  assert (Hstart :
    Profile.arg_wrapper qualname func (self, w) =
    match func (self, tick (tick w)) with
    | (Ok r, s) =>
        (let start_t := clock w (ticks w) in
         let start_mem := (float_of_Z (maxrss w (S (ticks w))) / float_of_Z 1)%float in
         end_t <- perf_counter ;;
         end_mem <- Profile.used_memory 1 ;;
         logger_info Profile.default_logger
           ("" +:+ " " +:+ qualname +:+ " time: " +:+
            float_str (end_t - start_t)%float +:+ "s " +:+
            ("memory Δ " +:+ get_readable_size (end_mem - start_mem)%float +:+
             " " +:+ get_readable_size start_mem +:+ " -> " +:+
             get_readable_size end_mem)) ;;
         ret r) s
    | (Err e, s) => (Err e, s)
    end) by reflexivity.
  rewrite Hstart, Hf. destruct outcome as [r|e]; [|reflexivity].
  destruct s2 as [self2 w2].
  cbv [bind perf_counter Profile.used_memory ru_maxrss logger_info ret fst snd].
  cbn [Z.eqb]. eexists. split; [reflexivity|].
  split; reflexivity.
Qed.

End ProfilingClaims.

Lemma profiling_logs_once_on_success_witness :
  busy true (tt, tick (tick ticking_world))
  = (Err (Raised "RuntimeError"), (tt, Nat.iter 5 tick ticking_world))
  /\ Profile.arg_wrapper (ext := plain_externals) "busy" (busy true) (tt, ticking_world)
     = (Err (Raised "RuntimeError"), (tt, Nat.iter 5 tick ticking_world)).
Proof.
  split; [reflexivity|].
  exact (profiling_logs_once_on_success (ext := plain_externals)
           "busy" (busy true) tt ticking_world _ _ eq_refl).
Defined.

(** ** ProgressBar *)

Section ProgressBarFacts.

Import ProgressBar.
Context {ext : Externals}.

(** [update], statement by statement. *)
Lemma update_unfold progress description message all_completed first_enter self w :
  update progress description message all_completed first_enter (self, w) =
  let self1 := counted progress first_enter self in
  if throttled (_completed_progress self1) (_last_rendered_progress self1)
       all_completed
  then (Ok tt, (self1, w))
  else
    let self2 := set_last_rendered_progress (_completed_progress self1) self1 in
    let w1 := tick (out (Write clear_line) w) in
    match TimeContext.start (context self) with
    | None => (Err AttributeError, (self2, w1))
    | Some t0 =>
        let elapsed := (clock w (ticks w) - t0)%float in
        match bar_counts (_bars_on_row self) (_completed_progress self1) with
        | Err e => (Err e, (self2, w1))
        | Ok b =>
            match time_label first_enter elapsed with
            | Err e => (Err e, (self2, w1))
            | Ok time_str =>
                match speed_label first_enter (_num_update_called self1) elapsed with
                | Err e => (Err e, (self2, w1))
                | Ok speed_str =>
                    (Ok tt,
                     (self2,
                      out Flush
                        (out (Write
                                (bar_line
                                   (Text.str_or description
                                      (Text.str_or
                                         (Some (TimeContext.task_name (context self)))
                                         ""))
                                   b (_bars_on_row self) all_completed time_str
                                   speed_str (Text.str_or message "")))
                           w1)))
                end
            end
        end
    end.
Proof.
  unfold update, bind, modify_self, get_self, stdout_write, stdout_flush, emit,
    perf_counter, lift, TimeContext.attr, ret, raise.
  cbn [fst snd].
  destruct (throttled _ _ all_completed); [reflexivity|].
  cbn [context set_last_rendered_progress counted set_completed_progress
       set_num_update_called _bars_on_row _completed_progress _num_update_called
       fst snd].
  destruct (TimeContext.start (context self)); [|reflexivity].
  destruct (bar_counts _ _); [|reflexivity].
  destruct (time_label _ _); [|reflexivity].
  destruct (speed_label _ _ _); reflexivity.
Qed.

End ProgressBarFacts.

(** ** Floats around zero *)

Lemma eqb_zero_SF x :
  PrimFloat.eqb x 0 = true -> exists s, Prim2SF x = S754_zero s.
Proof.
  rewrite FloatAxioms.eqb_spec. change (Prim2SF 0) with (S754_zero false).
  destruct (Prim2SF x) as [s|[]| |[] m e]; try discriminate.
  intros _. now exists s.
Qed.

Lemma ltb_zero_neq x : PrimFloat.ltb 0 x = true -> PrimFloat.eqb x 0 = false.
Proof.
  rewrite FloatAxioms.ltb_spec, FloatAxioms.eqb_spec. change (Prim2SF 0) with (S754_zero false).
  destruct (Prim2SF x) as [s|[]| |[] m e]; try discriminate; reflexivity.
Qed.

Lemma leb_zero_cases x :
  PrimFloat.leb 0 x = true -> PrimFloat.eqb x 0 = false -> PrimFloat.ltb 0 x = true.
Proof.
  rewrite FloatAxioms.leb_spec, FloatAxioms.ltb_spec, FloatAxioms.eqb_spec.
  change (Prim2SF 0) with (S754_zero false).
  destruct (Prim2SF x) as [s|[]| |[] m e]; try discriminate; reflexivity.
Qed.

Lemma timedelta_str_zero x :
  PrimFloat.eqb x 0 = true -> Text.timedelta_str x = Ok "0:00:00".
Proof.
  intros Hz. destruct (eqb_zero_SF x Hz) as [s Hs].
  unfold Text.timedelta_str. now rewrite Hs.
Qed.

Section ProgressBarClaims.

Import ProgressBar.
Context {ext : Externals}.

Lemma stdout_render w line :
  stdout (out Flush (out (Write line) (tick (out (Write clear_line) w)))) =
  stdout w ++ [Write clear_line; Write line; Flush].
Proof. simpl. now rewrite <- !app_assoc. Qed.

(** C3 (as the code has it): an [update] that leaves the counter less than
    0.5 away from the last rendered value, and is not marked
    [all_completed], only advances the two counters: nothing is written and
    the clock is not read.  An [update] marked [all_completed] is never
    throttled, whatever the distance: the counter becomes the last rendered
    value, the line is cleared and the clock is read; then, if the bar has
    been entered and the bar count and the two labels can be computed, the
    bar line of the new counter is written in yellow and flushed, and
    otherwise the call raises with nothing drawn after the line clear. *)
Theorem small_steps_are_not_drawn
    progress description message first_enter self w :
  let completed := (_completed_progress self + progress)%float in
  let self2 :=
    set_last_rendered_progress completed (counted progress first_enter self) in
  let w1 := tick (out (Write clear_line) w) in
  (PrimFloat.ltb (PrimFloat.abs (completed - _last_rendered_progress self)) 0.5 = true ->
   update progress description message false first_enter (self, w) =
   (Ok tt, (counted progress first_enter self, w)))
  /\ update progress description message true first_enter (self, w) =
     match TimeContext.start (context self) with
     | None => (Err AttributeError, (self2, w1))
     | Some t0 =>
         let elapsed := (clock w (ticks w) - t0)%float in
         match bar_counts (_bars_on_row self) completed with
         | Err e => (Err e, (self2, w1))
         | Ok b =>
             match time_label first_enter elapsed with
             | Err e => (Err e, (self2, w1))
             | Ok time_str =>
                 match speed_label first_enter
                         (_num_update_called self + (if first_enter then 0 else 1))
                         elapsed with
                 | Err e => (Err e, (self2, w1))
                 | Ok speed_str =>
                     (Ok tt,
                      (self2,
                       out Flush
                         (out (Write
                                 (bar_line
                                    (Text.str_or description
                                       (Text.str_or
                                          (Some (TimeContext.task_name
                                                   (context self))) ""))
                                    b (_bars_on_row self) true time_str speed_str
                                    (Text.str_or message "")))
                            w1)))
                 end
             end
         end
     end
  /\ (exists r self' w' evs,
        update progress description message true first_enter (self, w) = (r, (self', w'))
        /\ stdout w' = stdout w ++ Write clear_line :: evs
        /\ _last_rendered_progress self' = completed
        /\ (r = Ok tt ->
            exists b time_str speed_str,
              bar_counts (_bars_on_row self) completed = Ok b
              /\ evs =
                 [Write (bar_line
                           (Text.str_or description
                              (Text.str_or
                                 (Some (TimeContext.task_name (context self))) ""))
                           b (_bars_on_row self) true time_str speed_str
                           (Text.str_or message ""));
                  Flush])
        /\ (r <> Ok tt -> evs = [])).
Proof.
  intros completed self2 w1.
  assert (Hdraw :
    update progress description message true first_enter (self, w) =
    match TimeContext.start (context self) with
    | None => (Err AttributeError, (self2, w1))
    | Some t0 =>
        let elapsed := (clock w (ticks w) - t0)%float in
        match bar_counts (_bars_on_row self) completed with
        | Err e => (Err e, (self2, w1))
        | Ok b =>
            match time_label first_enter elapsed with
            | Err e => (Err e, (self2, w1))
            | Ok time_str =>
                match speed_label first_enter
                        (_num_update_called self + (if first_enter then 0 else 1))
                        elapsed with
                | Err e => (Err e, (self2, w1))
                | Ok speed_str =>
                    (Ok tt,
                     (self2,
                      out Flush
                        (out (Write
                                (bar_line
                                   (Text.str_or description
                                      (Text.str_or
                                         (Some (TimeContext.task_name
                                                  (context self))) ""))
                                   b (_bars_on_row self) true time_str speed_str
                                   (Text.str_or message "")))
                           w1)))
                end
            end
        end
    end).
  { rewrite update_unfold. cbn zeta. unfold throttled.
    rewrite andb_false_r. reflexivity. }
  split; [|split].
  - intros Hsmall. rewrite update_unfold. cbn zeta.
    unfold throttled. cbn [counted set_completed_progress set_num_update_called
      _completed_progress _last_rendered_progress].
    fold completed. now rewrite Hsmall.
  - exact Hdraw.
  - rewrite Hdraw. cbn zeta.
    destruct (TimeContext.start (context self)) as [t0|];
      [destruct (bar_counts _ _) as [b|] eqn:Hb;
       [destruct (time_label _ _) as [ts|];
        [destruct (speed_label _ _ _) as [ss|]|]|]|].
    1: { eexists _, _, _, _. split; [reflexivity|]. unfold w1.
         rewrite stdout_render. repeat split.
         - intros _. exists b, ts, ss. now split.
         - intros Hne. now destruct Hne. }
    all: eexists _, _, _, []; split; [reflexivity|];
      repeat split; discriminate.
Qed.

(** C10: in a render that is not the entering one, the rate label is the
    call counter divided by the elapsed time, with no guard: the division
    raises [ZeroDivisionError] when the elapsed time is zero, and so does
    the whole [update]; when the elapsed time is positive the division is
    defined and its quotient is the label; and for a clock that did not go
    back, the division is defined exactly when the elapsed time is
    positive. *)
Theorem rate_needs_positive_elapsed
    progress description message all_completed self w t0 b :
  let self1 := counted progress false self in
  let calls := _num_update_called self + 1 in
  let elapsed := (clock w (ticks w) - t0)%float in
  throttled (_completed_progress self1) (_last_rendered_progress self) all_completed
  = false ->
  TimeContext.start (context self) = Some t0 ->
  bar_counts (_bars_on_row self) (_completed_progress self1) = Ok b ->
  speed_label false calls elapsed =
    (if PrimFloat.eqb elapsed 0 then Err ZeroDivisionError
     else Ok (Text.format_fixed 1 (float_of_Z calls / elapsed)%float +:+ " step/s"))
  /\ (PrimFloat.eqb elapsed 0 = true ->
      fst (update progress description message all_completed false (self, w))
      = Err ZeroDivisionError)
  /\ (PrimFloat.ltb 0 elapsed = true ->
      PrimFloat.eqb elapsed 0 = false
      /\ forall time_str,
          Text.timedelta_str elapsed = Ok time_str ->
          exists self' w',
            update progress description message all_completed false (self, w)
            = (Ok tt, (self', w'))
            /\ stdout w' =
               stdout w ++
               [Write clear_line;
                Write (bar_line
                         (Text.str_or description
                            (Text.str_or (Some (TimeContext.task_name (context self)))
                               ""))
                         b (_bars_on_row self) all_completed time_str
                         (Text.format_fixed 1 (float_of_Z calls / elapsed)%float
                          +:+ " step/s")
                         (Text.str_or message ""));
                Flush])
  /\ (PrimFloat.leb 0 elapsed = true ->
      (PrimFloat.eqb elapsed 0 = false <-> PrimFloat.ltb 0 elapsed = true)).
Proof.
  intros self1 calls elapsed Hdraw Hstart Hbars.
  assert (Hlabel : speed_label false calls elapsed =
    (if PrimFloat.eqb elapsed 0 then Err ZeroDivisionError
     else Ok (Text.format_fixed 1 (float_of_Z calls / elapsed)%float +:+ " step/s"))).
  { unfold speed_label, int_truediv. now destruct (PrimFloat.eqb elapsed 0). }
  assert (Hrun :
    update progress description message all_completed false (self, w) =
    match time_label false elapsed with
    | Err e =>
        (Err e, (set_last_rendered_progress (_completed_progress self1) self1,
                 tick (out (Write clear_line) w)))
    | Ok time_str =>
        match speed_label false calls elapsed with
        | Err e =>
            (Err e, (set_last_rendered_progress (_completed_progress self1) self1,
                     tick (out (Write clear_line) w)))
        | Ok speed_str =>
            (Ok tt,
             (set_last_rendered_progress (_completed_progress self1) self1,
              out Flush
                (out (Write
                        (bar_line
                           (Text.str_or description
                              (Text.str_or
                                 (Some (TimeContext.task_name (context self))) ""))
                           b (_bars_on_row self) all_completed time_str speed_str
                           (Text.str_or message "")))
                   (tick (out (Write clear_line) w)))))
        end
    end).
  { rewrite update_unfold. cbn zeta. fold self1.
    replace (_last_rendered_progress self1) with (_last_rendered_progress self)
      by reflexivity.
    rewrite Hdraw, Hstart, Hbars. reflexivity. }
  split; [exact Hlabel|]. split; [|split].
  - intros Hz. rewrite Hrun. unfold time_label.
    rewrite (timedelta_str_zero _ Hz), Hlabel, Hz. reflexivity.
  - intros Hpos. pose proof (ltb_zero_neq _ Hpos) as Hnz. split; [exact Hnz|].
    intros time_str Htime. rewrite Hrun. unfold time_label.
    rewrite Htime, Hlabel, Hnz. eexists _, _. split; [reflexivity|].
    apply stdout_render.
  - intros Hnonneg. split.
    + now apply leb_zero_cases.
    + apply ltb_zero_neq.
Qed.

End ProgressBarClaims.

Lemma small_steps_are_not_drawn_witness :
  PrimFloat.ltb
    (PrimFloat.abs (ProgressBar._completed_progress (entered_bar 0) + 0.25
                    - ProgressBar._last_rendered_progress (entered_bar 0)))
    0.5 = true
  /\ ProgressBar.update (ext := plain_externals) 0.25 None None false false
       (entered_bar 0, ticking_world) =
     (Ok tt, (ProgressBar.counted 0.25 false (entered_bar 0), ticking_world)).
Proof.
  split; [reflexivity|].
  apply (proj1 (small_steps_are_not_drawn (ext := plain_externals)
                  0.25 None None false (entered_bar 0) ticking_world)).
  reflexivity.
Defined.

(** C3 as stated fails: a call marked [all_completed] does not always
    render.  On a clock that has not moved since the bar was entered, and
    on a bar that was never entered, the call raises once the line is
    cleared, and no bar line is written. *)
Lemma all_completed_render_can_fail :
  fst (ProgressBar.update (ext := plain_externals) 1 None None true false
         (entered_bar 5, frozen_world))
  = Err ZeroDivisionError
  /\ stdout (snd (snd (ProgressBar.update (ext := plain_externals)
                         1 None None true false (entered_bar 5, frozen_world))))
     = [Write ProgressBar.clear_line]
  /\ fst (ProgressBar.update (ext := plain_externals) 1 None None true false
            (ProgressBar.__init__ "W" ProgressBar.NoMessage, ticking_world))
     = Err AttributeError
  /\ stdout (snd (snd (ProgressBar.update (ext := plain_externals)
                         1 None None true false
                         (ProgressBar.__init__ "W" ProgressBar.NoMessage,
                          ticking_world))))
     = [Write ProgressBar.clear_line].
Proof.
  repeat split; vm_compute; reflexivity.
Qed.

Lemma rate_needs_positive_elapsed_witness :
  ProgressBar.throttled
    (ProgressBar._completed_progress (ProgressBar.counted 1 false (entered_bar 5)))
    (ProgressBar._last_rendered_progress (entered_bar 5)) false = false
  /\ TimeContext.start (ProgressBar.context (entered_bar 5)) = Some 5%float
  /\ ProgressBar.bar_counts (ProgressBar._bars_on_row (entered_bar 5))
       (ProgressBar._completed_progress (ProgressBar.counted 1 false (entered_bar 5)))
     = Ok (ProgressBar.mkBars 2 2 1)
  /\ PrimFloat.eqb (clock frozen_world (ticks frozen_world) - 5) 0 = true
  /\ fst (ProgressBar.update (ext := plain_externals) 1 None None false false
            (entered_bar 5, frozen_world))
     = Err ZeroDivisionError.
Proof.
  repeat (split; [reflexivity|]).
  apply (proj1 (proj2 (rate_needs_positive_elapsed (ext := plain_externals)
                         1 None None false (entered_bar 5) frozen_world 5%float
                         (ProgressBar.mkBars 2 2 1) eq_refl eq_refl eq_refl))).
  reflexivity.
Defined.

Lemma append_assoc (a b c : string) : (a +:+ b) +:+ c = a +:+ (b +:+ c).
Proof.
  induction a as [|x a IH]; [reflexivity|].
  change (String x ((a +:+ b) +:+ c) = String x (a +:+ b +:+ c)).
  now f_equal.
Qed.

Section ProgressBarRendering.

Import ProgressBar.
Context {ext : Externals}.

(** A render that returns has written the bar of the new counter. *)
Lemma update_draws progress description message all_completed first_enter
    self w self' w' :
  throttled (_completed_progress self + progress)%float
    (_last_rendered_progress self) all_completed = false ->
  update progress description message all_completed first_enter (self, w)
  = (Ok tt, (self', w')) ->
  exists b time_str speed_str,
    bar_counts (_bars_on_row self) (_completed_progress self + progress)%float = Ok b
    /\ stdout w' =
       stdout w ++
       [Write clear_line;
        Write (bar_line
                 (Text.str_or description
                    (Text.str_or (Some (TimeContext.task_name (context self))) ""))
                 b (_bars_on_row self) all_completed time_str speed_str
                 (Text.str_or message ""));
        Flush].
Proof.
  intros Hdraw. rewrite update_unfold. cbn zeta.
  cbn [counted set_completed_progress set_num_update_called
       _completed_progress _last_rendered_progress _num_update_called].
  rewrite Hdraw.
  destruct (TimeContext.start (context self)) as [t0|]; [|discriminate].
  destruct (bar_counts _ _) as [b|]; [|discriminate].
  destruct (time_label _ _) as [ts|]; [|discriminate].
  destruct (speed_label _ _ _) as [ss|]; [|discriminate].
  intros E. inversion E; subst. exists b, ts, ss. split; [reflexivity|].
  apply stdout_render.
Qed.

(** C5 (as the code has it): the bar count of a render is the counter
    modulo 40, except that a non-zero multiple of 40 gives the full row of
    40 and any other remainder below 1 is raised to 1; the filled-bar count
    is its floor, and [num_halfbars] is 1 exactly when what the floor leaves
    is at most 0.5.  The half-bar glyph is part of every rendered line, in
    the colour of the bar whatever [num_halfbars] is, and a render that
    returns has written that line for the new counter. *)
Theorem bars_of_a_render (completed : float) :
  exists rem,
    float_rem completed 40 = Ok rem
    /\ num_bars_of 40 completed =
       Ok (if PrimFloat.eqb rem 0 && negb (PrimFloat.eqb completed 0) then 40%float
           else if PrimFloat.ltb rem 1 then 1%float else rem)
    /\ (forall b,
          bar_counts 40 completed = Ok b ->
          num_bars_of 40 completed = Ok (num_bars b)
          /\ floor (num_bars b) = Ok (num_fullbars b)
          /\ num_halfbars b =
             (if PrimFloat.leb (num_bars b - float_of_Z (num_fullbars b)) 0.5
              then 1 else 0)
          /\ forall description all_completed time_str speed_str msg_str,
               exists before after,
                 bar_line description b 40 all_completed time_str speed_str msg_str
                 = before +:+
                   colored half_bar
                     (Some (if all_completed then "yellow" else "green")) []
                   +:+ after)
    /\ (forall progress description message all_completed first_enter self w self' w',
          _bars_on_row self = 40 ->
          (_completed_progress self + progress)%float = completed ->
          throttled completed (_last_rendered_progress self) all_completed = false ->
          update progress description message all_completed first_enter (self, w)
          = (Ok tt, (self', w')) ->
          exists b time_str speed_str,
            bar_counts 40 completed = Ok b
            /\ stdout w' =
               stdout w ++
               [Write clear_line;
                Write (bar_line
                         (Text.str_or description
                            (Text.str_or
                               (Some (TimeContext.task_name (context self))) ""))
                         b 40 all_completed time_str speed_str
                         (Text.str_or message ""));
                Flush]).
Proof.
  assert (Hrem : exists rem, float_rem completed 40 = Ok rem).
  { unfold float_rem. change (PrimFloat.eqb 40 0) with false. cbv iota zeta.
    destruct (truthy _); eexists; reflexivity. }
  destruct Hrem as [rem Hrem]. exists rem. split; [exact Hrem|]. split; [|split].
  - unfold num_bars_of. change (float_of_Z 40) with 40%float. rewrite Hrem.
    unfold truthy, py_max. now rewrite negb_involutive.
  - intros b Hb. unfold bar_counts in Hb.
    destruct (num_bars_of 40 completed) as [nb|]; [|discriminate].
    destruct (floor nb) as [nf|] eqn:Hfloor; [|discriminate].
    inversion Hb; subst; clear Hb. cbn [num_bars num_fullbars num_halfbars].
    repeat split; [exact Hfloor|].
    intros description all_completed time_str speed_str msg_str.
    unfold bar_line. cbn [num_fullbars num_halfbars].
    exists (Text.rjust 10 description +:+ " " +:+
            colored (Text.repeat full_bar nf)
              (Some (if all_completed then "yellow" else "green")) []).
    eexists.
    rewrite !append_assoc.
    destruct (_ =? 0); reflexivity.
  - intros progress description message all_completed first_enter self w self' w'
      Hrow Hsum Hdraw Hrun.
    rewrite <- Hsum in Hdraw.
    destruct (update_draws _ _ _ _ _ _ _ _ _ Hdraw Hrun) as (b & ts & ss & Hb & Hout).
    rewrite Hrow, Hsum in *. now exists b, ts, ss.
Qed.

End ProgressBarRendering.

Lemma bars_of_a_render_witness :
  ProgressBar.bar_counts 40 39.75 = Ok (ProgressBar.mkBars 39.75 39 0)
  /\ floor 39.75 = Ok 39.
Proof.
  split; [vm_compute; reflexivity|].
  destruct (bars_of_a_render (ext := plain_externals) 39.75)
    as (rem & _ & _ & Hb & _).
  exact (proj1 (proj2 (Hb (ProgressBar.mkBars 39.75 39 0) eq_refl))).
Defined.

(** C5 as stated fails.  At 40.5 the remainder 0.5 is positive and 40.5 is
    no multiple of 40, yet the bar count is 1, not 0.5; and at 39.75, where
    the floor leaves 0.75, the rendered line still has its half-bar glyph. *)
Lemma fractional_remainder_is_raised :
  ProgressBar.num_bars_of 40 40.5 = Ok 1%float
  /\ ProgressBar.num_bars_as_specified 40 40.5 = Ok 0.5%float
  /\ ProgressBar.num_bars_of 40 40.5 <> ProgressBar.num_bars_as_specified 40 40.5
  /\ ProgressBar.bar_counts 40 39.75 = Ok (ProgressBar.mkBars 39.75 39 0)
  /\ ProgressBar.bar_line (ext := plain_externals) "W"
       (ProgressBar.mkBars 39.75 39 0) 40 false "0:00:01" "1.0 step/s" ""
     = "         W " +:+ Text.repeat ProgressBar.full_bar 39 +:+
       ProgressBar.half_bar +:+ ProgressBar.full_bar +:+ " 0:00:01 1.0 step/s ".
Proof.
  assert (Hcode : ProgressBar.num_bars_of 40 40.5 = Ok 1%float)
    by (vm_compute; reflexivity).
  assert (Hspec : ProgressBar.num_bars_as_specified 40 40.5 = Ok 0.5%float)
    by (vm_compute; reflexivity).
  split; [exact Hcode|]. split; [exact Hspec|]. split; [|split].
  - rewrite Hcode, Hspec. discriminate.
  - vm_compute. reflexivity.
  - vm_compute. reflexivity.
Qed.

Section ProgressBarExit.

Import ProgressBar.
Context {ext : Externals}.

(** [_exit_msg], statement by statement. *)
Lemma exit_msg_unfold self w :
  exit_msg (self, w) =
  if PrimFloat.ltb 1 (_last_rendered_progress self) then
    match TimeContext.readable_duration (context self) with
    | None => (Err AttributeError, (self, w))
    | Some readable =>
        match update 0 None None true false (self, w) with
        | (Ok _, (self', w')) =>
            (Ok tt,
             (self',
              out Flush
                (out (Write Text.LF)
                   (out (Write (final_message self readable)) w'))))
        | (Err e, s') => (Err e, s')
        end
    end
  else (Ok tt, (self, out Flush (out (Write clear_line) w))).
Proof.
  unfold exit_msg. unfold bind at 1. cbn [get_self fst snd].
  destruct (PrimFloat.ltb 1 (_last_rendered_progress self)); [|reflexivity].
  unfold bind at 1. unfold bind at 1.
  destruct (TimeContext.readable_duration (context self)) as [readable|];
    [|reflexivity].
  cbn [TimeContext.attr ret]. unfold bind at 1.
  destruct (update _ _ _ _ _ _) as [[u|e] [self' w']]; reflexivity.
Qed.

(** [__exit__], inherited from [TimeContext], up to the call of
    [_exit_msg]. *)
Lemma exit_unfold self w :
  ProgressBar.__exit__ (self, w) =
  match TimeContext.start (context self) with
  | None => (Err AttributeError, (self, tick w))
  | Some t0 =>
      let d := (clock w (ticks w) - t0)%float in
      exit_msg
        (set_context
           (TimeContext.set_readable_duration (get_readable_time d)
              (TimeContext.set_duration d (context self))) self,
         tick w)
  end.
Proof.
  unfold ProgressBar.__exit__, TimeContext.__exit__, TimeContext.now.
  unfold bind at 1. unfold bind at 1. cbn [perf_counter fst snd].
  unfold bind at 1. cbn [get_self fst snd TimeContext.base scoped].
  destruct (TimeContext.start (context self)) as [t0|]; reflexivity.
Qed.

(** C4 (as the code has it): when [_last_rendered_progress] does not exceed
    1, [_exit_msg] writes the line clear and flushes, and nothing else.
    Otherwise the final message is the erase-line sequence followed by
    ["{completed_progress:.0f} steps done in {readable_duration}"], unless
    [message_on_done] is a non-empty literal, which replaces it, or a
    callable, whose result replaces it; [update(0, all_completed=True)]
    draws one more line, and once it has returned the final message and a
    newline are written, and flushed. *)
Theorem exit_clears_or_summarises self w :
  (PrimFloat.ltb 1 (_last_rendered_progress self) = false ->
   exit_msg (self, w) = (Ok tt, (self, out Flush (out (Write clear_line) w))))
  /\ (PrimFloat.ltb 1 (_last_rendered_progress self) = true ->
      forall readable self' w',
        TimeContext.readable_duration (context self) = Some readable ->
        update 0 None None true false (self, w) = (Ok tt, (self', w')) ->
        let summary :=
          Text.ESC +:+ "[K" +:+ Text.format_fixed 0 (_completed_progress self) +:+
          " steps done in " +:+ readable in
        let final_msg :=
          match _on_done self with
          | NoMessage => summary
          | Literal "" => summary
          | Literal s => s
          | Callable f => f tt
          end in
        exit_msg (self, w) =
        (Ok tt,
         (self', out Flush (out (Write Text.LF) (out (Write final_msg) w'))))
        /\ exists line,
             stdout w' = stdout w ++ [Write clear_line; Write line; Flush]).
Proof.
  split.
  - intros Hfew. rewrite exit_msg_unfold. now rewrite Hfew.
  - intros Hmany readable self' w' Hreadable Hdraw. cbn zeta.
    rewrite exit_msg_unfold, Hmany, Hreadable, Hdraw. split; [reflexivity|].
    destruct (update_draws _ _ _ _ _ _ _ _ _
                (andb_false_r _ : throttled _ _ true = false) Hdraw)
      as (b & ts & ss & _ & Hout).
    eexists. exact Hout.
Qed.

End ProgressBarExit.

Lemma exit_clears_or_summarises_witness :
  PrimFloat.ltb 1 (ProgressBar._last_rendered_progress leaving_bar) = true
  /\ exists self' w',
       ProgressBar.update (ext := plain_externals) 0 None None true false
         (leaving_bar, leaving_world)
       = (Ok tt, (self', w'))
       /\ ProgressBar.exit_msg (ext := plain_externals) (leaving_bar, leaving_world)
          = (Ok tt,
             (self',
              out Flush
                (out (Write Text.LF)
                   (out (Write (Text.ESC +:+ "[K2 steps done in 3 seconds")) w')))).
Proof.
  assert (Hmany :
    PrimFloat.ltb 1 (ProgressBar._last_rendered_progress leaving_bar) = true)
    by (vm_compute; reflexivity).
  split; [exact Hmany|].
  pose (r := ProgressBar.update (ext := plain_externals) 0 None None true false
               (leaving_bar, leaving_world)).
  assert (Hr : r = (Ok tt, (fst (snd r), snd (snd r)))) by (vm_compute; reflexivity).
  exists (fst (snd r)), (snd (snd r)). split; [exact Hr|].
  destruct (proj2 (exit_clears_or_summarises (ext := plain_externals)
                     leaving_bar leaving_world)
              Hmany "3 seconds" _ _ (eq_refl _) Hr) as [Hexit _].
  rewrite Hexit. vm_compute. reflexivity.
Defined.

(** C4 as stated fails: after one [update()] the exit does print a summary,
    but the message written is not the bare
    ["{completed_progress:.0f} steps done in {readable_duration}"]; it
    starts with the erase-line control sequence. *)
Lemma summary_starts_with_erase_sequence :
  fst one_update_session = Ok tt
  /\ ProgressBar.summary_as_specified (fst (snd one_update_session)) "3 seconds"
     = "2 steps done in 3 seconds"
  /\ Write (Text.ESC +:+ "[K" +:+
            ProgressBar.summary_as_specified (fst (snd one_update_session))
              "3 seconds")
     ∈ stdout (snd (snd one_update_session))
  /\ Write (ProgressBar.summary_as_specified (fst (snd one_update_session))
              "3 seconds")
     ∉ stdout (snd (snd one_update_session)).
Proof.
  split; [vm_compute; reflexivity|]. split; [vm_compute; reflexivity|]. split.
  - apply (bool_decide_eq_true_1 _). vm_compute. reflexivity.
  - apply (bool_decide_eq_false_1 _). vm_compute. reflexivity.
Qed.

Section ProgressBarSession.

Import ProgressBar.
Context {ext : Externals}.

(** Whatever its outcome, [update] has added [progress] to the counter and
    left the timer fields and the configuration alone. *)
Lemma update_keeps progress description message all_completed first_enter
    self w r self' w' :
  update progress description message all_completed first_enter (self, w)
  = (r, (self', w')) ->
  _completed_progress self' = (_completed_progress self + progress)%float
  /\ context self' = context self
  /\ _on_done self' = _on_done self
  /\ _bars_on_row self' = _bars_on_row self.
Proof.
  rewrite update_unfold. cbn zeta.
  destruct (throttled _ _ _);
    [|destruct (TimeContext.start (context self));
      [destruct (bar_counts _ _);
       [destruct (time_label _ _); [destruct (speed_label _ _ _)|]|]|]].
  all: intros E; inversion E; subst; repeat split.
Qed.

Lemma advance_sum ps : forall self w self' w',
  advance ps (self, w) = (Ok tt, (self', w')) ->
  _completed_progress self' = fold_left PrimFloat.add ps (_completed_progress self)
  /\ context self' = context self
  /\ _on_done self' = _on_done self.
Proof.
  induction ps as [|p ps IH]; intros self w self' w' Hrun.
  - inversion Hrun; subst. repeat split.
  - cbn [advance] in Hrun. unfold bind at 1 in Hrun.
    destruct (update p None None false false (self, w)) as [[u|e] [self1 w1]] eqn:Hp;
      [|discriminate].
    destruct (update_keeps _ _ _ _ _ _ _ _ _ _ Hp) as (Hc & Hctx & Hdone & _).
    destruct (IH _ _ _ _ Hrun) as (Hc' & Hctx' & Hdone').
    cbn [fold_left]. rewrite <- Hc, Hc', Hctx', Hdone'. repeat split; assumption.
Qed.

(** Entering a fresh bar. *)
Lemma enter_fresh description on_done w :
  ProgressBar.__enter__ (__init__ description on_done, w) =
  (Ok tt,
   (mk (TimeContext.set_start (clock w (ticks w))
          (TimeContext.__init__ description None))
       40 1 1 0 on_done,
    out Flush
      (out (Write
              (bar_line (Text.str_or None (Text.str_or (Some description) ""))
                 (mkBars 1 1 1) 40 false "-:--:--" "estimating..." ""))
         (tick (out (Write clear_line) (tick w)))))).
Proof.
  unfold ProgressBar.__enter__, TimeContext.__enter__.
  unfold bind at 1. cbn [perf_counter fst snd].
  unfold bind at 1. cbn [modify_self fst snd].
  cbn [TimeContext._enter_msg scoped]. unfold enter_msg.
  rewrite update_unfold. reflexivity.
Qed.

(** C9: entering a bar runs [update] with the default progress, so a fresh
    bar comes out of [__enter__] with a counter of 1.0 and no call counted;
    every later [update(p)] adds [p] to that, and the default summary
    printed on exit shows the total, the entering unit included. *)
Theorem entering_counts_one_step description on_done w :
  exists self1 w1,
    ProgressBar.__enter__ (__init__ description on_done, w) = (Ok tt, (self1, w1))
    /\ _completed_progress self1 = 1%float
    /\ _num_update_called self1 = 0
    /\ forall ps self2 w2,
         advance ps (self1, w1) = (Ok tt, (self2, w2)) ->
         _completed_progress self2 = fold_left PrimFloat.add ps 1%float
         /\ forall self3 w3,
              on_done = NoMessage ->
              PrimFloat.ltb 1 (_last_rendered_progress self2) = true ->
              ProgressBar.__exit__ (self2, w2) = (Ok tt, (self3, w3)) ->
              exists evs,
                stdout w3 =
                evs ++
                [Write (Text.ESC +:+ "[K" +:+
                        Text.format_fixed 0 (fold_left PrimFloat.add ps 1%float) +:+
                        " steps done in " +:+
                        get_readable_time
                          (clock w2 (ticks w2) - clock w (ticks w))%float);
                 Write Text.LF; Flush].
Proof.
  eexists _, _. split; [apply enter_fresh|]. split; [reflexivity|].
  split; [reflexivity|].
  intros ps self2 w2 Hadv.
  destruct (advance_sum _ _ _ _ _ Hadv) as (Hsum & Hctx & Hdone).
  cbn [_completed_progress context _on_done] in Hsum, Hctx, Hdone.
  split; [exact Hsum|].
  intros self3 w3 -> Hmany. rewrite exit_unfold, Hctx.
  cbn [TimeContext.start TimeContext.set_start]. cbn zeta.
  rewrite exit_msg_unfold.
  cbn [_last_rendered_progress set_context context
       TimeContext.readable_duration TimeContext.set_readable_duration].
  rewrite Hmany.
  destruct (update 0 None None true false _) as [[u|e] [self' w']];
    [|discriminate].
  intros E. inversion E; subst; clear E.
  unfold final_message, steps_done.
  cbn [_on_done set_context _completed_progress]. rewrite Hdone, Hsum.
  exists (stdout w'). cbn [stdout out]. now rewrite <- !app_assoc.
Qed.

End ProgressBarSession.

Lemma entering_counts_one_step_witness :
  exists self2 w2,
    (ProgressBar.__enter__ (ext := plain_externals) ;;
     ProgressBar.advance (ext := plain_externals) [1; 1; 1; 1; 1]%float)
      (ProgressBar.__init__ "Working..." ProgressBar.NoMessage, ticking_world)
    = (Ok tt, (self2, w2))
    /\ ProgressBar._completed_progress self2 = 6%float
    /\ PrimFloat.ltb 1 (ProgressBar._last_rendered_progress self2) = true
    /\ exists self3 w3 evs,
         ProgressBar.__exit__ (ext := plain_externals) (self2, w2)
         = (Ok tt, (self3, w3))
         /\ stdout w3 =
            evs ++ [Write (Text.ESC +:+ "[K6 steps done in 7 seconds");
                    Write Text.LF; Flush].
Proof.
  destruct (entering_counts_one_step (ext := plain_externals)
              "Working..." ProgressBar.NoMessage ticking_world)
    as (self1 & w1 & Hen & _ & _ & Hrest).
  pose proof Hen as Hen'. rewrite enter_fresh in Hen'.
  inversion Hen' as [[Hs Hw]]. clear Hen'.
  pose (r := ProgressBar.advance (ext := plain_externals)
               [1; 1; 1; 1; 1]%float (self1, w1)).
  assert (Hr : r = (Ok tt, (fst (snd r), snd (snd r)))).
  { subst r. rewrite <- Hs, <- Hw. vm_compute. reflexivity. }
  destruct (Hrest _ _ _ Hr) as [Hsum Hexit].
  assert (Hmany : PrimFloat.ltb 1
            (ProgressBar._last_rendered_progress (fst (snd r))) = true).
  { subst r. rewrite <- Hs, <- Hw. vm_compute. reflexivity. }
  pose (r3 := ProgressBar.__exit__ (ext := plain_externals)
                (fst (snd r), snd (snd r))).
  assert (Hr3 : r3 = (Ok tt, (fst (snd r3), snd (snd r3)))).
  { subst r3 r. rewrite <- Hs, <- Hw. vm_compute. reflexivity. }
  destruct (Hexit _ _ eq_refl Hmany Hr3) as [evs Hevs].
  exists (fst (snd r)), (snd (snd r)). split; [|split; [|split]].
  - unfold bind at 1. rewrite Hen. exact Hr.
  - rewrite Hsum. vm_compute. reflexivity.
  - exact Hmany.
  - exists (fst (snd r3)), (snd (snd r3)), evs. split; [exact Hr3|].
    rewrite Hevs. f_equal. subst r. rewrite <- Hs, <- Hw. vm_compute. reflexivity.
Defined.

(** * Further properties *)

(** ** TimeDict *)

Section TimeDictMore.

Import TimeDict.

Lemma enter_empty self w :
  _key_stack self = [] -> __enter__ (self, w) = (Err IndexError, (self, w)).
Proof.
  intros Hs. unfold __enter__, bind, get_self. simpl. now rewrite Hs.
Qed.

(** X1: [__enter__] without a pushed key fails with the [IndexError] of
    [self._key_stack[-1]]; the clock is not read and nothing is stored. *)
Theorem enter_on_empty_stack_raises_IndexError self w :
  _key_stack self = [] ->
  __enter__ (self, w) = (Err IndexError, (self, w)).
Proof. apply enter_empty. Qed.

Lemma enter_on_empty_stack_raises_IndexError_witness :
  _key_stack __init__ = []
  /\ __enter__ (__init__, ticking_world) = (Err IndexError, (__init__, ticking_world)).
Proof.
  split; [reflexivity|].
  apply (enter_on_empty_stack_raises_IndexError __init__ ticking_world).
  reflexivity.
Defined.

(** X2: [__enter__] stamps the top key only.  The first entry of a key
    reads the clock twice, for [first_start_time] and for [start_time];
    a later entry reads it once and leaves [first_start_time[key]] as it
    was.  The accumulated and end times, the stack, the pending flag and
    the stamps of every other key stay as they are. *)
Theorem enter_stamps_top_key_only self w rest key :
  _key_stack self = rest ++ [key] ->
  exists self' w',
    __enter__ (self, w) = (Ok tt, (self', w'))
    /\ match first_start_time self !! key with
       | Some first =>
           first_start_time self' !! key = Some first
           /\ start_time self' !! key = Some (clock w (ticks w))
           /\ w' = tick w
       | None =>
           first_start_time self' !! key = Some (clock w (ticks w))
           /\ start_time self' !! key = Some (clock w (S (ticks w)))
           /\ w' = tick (tick w)
       end
    /\ accum_time self' = accum_time self
    /\ end_time self' = end_time self
    /\ _key_stack self' = _key_stack self
    /\ _pending_reset self' = _pending_reset self
    /\ forall other, key <> other ->
         first_start_time self' !! other = first_start_time self !! other
         /\ start_time self' !! other = start_time self !! other.
Proof.
  intros Hs. rewrite (enter_eq _ _ _ _ Hs).
  destruct (first_start_time self !! key) as [first|] eqn:Hf;
    eexists _, _; (split; [reflexivity|]); cbn.
  - rewrite lookup_insert_eq. repeat split; try assumption.
    now rewrite lookup_insert_ne.
  - rewrite !lookup_insert_eq. repeat split; now rewrite lookup_insert_ne.
Qed.

Lemma enter_stamps_top_key_only_witness :
  _key_stack (mk ∅ ∅ ∅ ∅ ["load"] false) = [] ++ ["load"]
  /\ exists self' w',
       __enter__ (mk ∅ ∅ ∅ ∅ ["load"] false, ticking_world) = (Ok tt, (self', w'))
       /\ _key_stack self' = ["load"].
Proof.
  split; [reflexivity|].
  destruct (enter_stamps_top_key_only (mk ∅ ∅ ∅ ∅ ["load"] false)
              ticking_world [] "load" eq_refl)
    as (self' & w' & Hrun & _ & _ & _ & Hstack & _).
  exists self', w'. split; [exact Hrun|exact Hstack].
Defined.

(** X3: an exit of a key that was pushed but never entered reads
    [start_time[key]] of the default dictionary: the key is stored there
    with 0.0, and the whole clock reading is added to the accumulated
    time. *)
Theorem exit_without_enter_counts_from_zero self w rest key :
  _key_stack self = rest ++ [key] ->
  _pending_reset self = false ->
  start_time self !! key = None ->
  exists self',
    __exit__ (self, w) = (Ok tt, (self', tick w))
    /\ start_time self' !! key = Some 0%float
    /\ accum_time self' !! key =
       Some (accumulated self key + (clock w (ticks w) - 0))%float.
Proof.
  intros Hs Hp Hnone. rewrite (exit_eq _ _ _ _ Hs), Hp.
  eexists. split; [reflexivity|]. unfold popped, dd_get. rewrite Hnone. cbn.
  rewrite lookup_insert_eq, dd_iadd_lookup. now split.
Qed.

Lemma exit_without_enter_counts_from_zero_witness :
  _key_stack (mk ∅ ∅ ∅ ∅ ["load"] false) = [] ++ ["load"]
  /\ _pending_reset (mk ∅ ∅ ∅ ∅ ["load"] false) = false
  /\ start_time (mk ∅ ∅ ∅ ∅ ["load"] false) !! "load" = None
  /\ exists self',
       __exit__ (mk ∅ ∅ ∅ ∅ ["load"] false, tick (tick (tick ticking_world)))
       = (Ok tt, (self', tick (tick (tick (tick ticking_world)))))
       /\ start_time self' !! "load" = Some 0%float.
Proof.
  assert (Hnone : start_time (mk ∅ ∅ ∅ ∅ ["load"] false) !! "load" = None)
    by apply lookup_empty.
  split; [reflexivity|]. split; [reflexivity|]. split; [exact Hnone|].
  destruct (exit_without_enter_counts_from_zero (mk ∅ ∅ ∅ ∅ ["load"] false)
              (tick (tick (tick ticking_world))) [] "load"
              eq_refl eq_refl Hnone)
    as (self' & Hrun & Hstart & _).
  exists self'. split; [exact Hrun|exact Hstart].
Defined.

(** X4: with no reset pending, [__exit__] touches the entries of the popped
    key only: [first_start_time] is left whole, and the accumulated, start
    and end times of every other key are what they were. *)
Theorem exit_touches_top_key_only self w rest key :
  _key_stack self = rest ++ [key] ->
  _pending_reset self = false ->
  exists self',
    __exit__ (self, w) = (Ok tt, (self', tick w))
    /\ first_start_time self' = first_start_time self
    /\ _pending_reset self' = false
    /\ forall other, key <> other ->
         accum_time self' !! other = accum_time self !! other
         /\ start_time self' !! other = start_time self !! other
         /\ end_time self' !! other = end_time self !! other.
Proof.
  intros Hs Hp. rewrite (exit_eq _ _ _ _ Hs), Hp.
  eexists. split; [reflexivity|]. cbn. repeat split; try assumption.
  - now apply dd_iadd_lookup_ne.
  - unfold dd_get. destruct (start_time self !! key); cbn; [reflexivity|].
    now rewrite lookup_insert_ne.
  - now rewrite lookup_insert_ne.
Qed.

Lemma exit_touches_top_key_only_witness :
  _key_stack (mk ∅ ∅ ∅ ∅ ["load"] false) = [] ++ ["load"]
  /\ _pending_reset (mk ∅ ∅ ∅ ∅ ["load"] false) = false
  /\ exists self',
       __exit__ (mk ∅ ∅ ∅ ∅ ["load"] false, ticking_world)
       = (Ok tt, (self', tick ticking_world))
       /\ first_start_time self' = ∅.
Proof.
  repeat (split; [reflexivity|]).
  destruct (exit_touches_top_key_only (mk ∅ ∅ ∅ ∅ ["load"] false)
              ticking_world [] "load" eq_refl eq_refl)
    as (self' & Hrun & Hfirst & _).
  exists self'. split; [exact Hrun|exact Hfirst].
Defined.

End TimeDictMore.

Section TimeDictRuns.

Import TimeDict.

(** X5: two scopes on one key, one after the other, each add their own
    duration, from their own entry to their own exit, to the one
    accumulated time, and give the stack back as it was. *)
Theorem sequential_scopes_add_up self w key :
  _pending_reset self = false ->
  let d := enter_readings self key in
  let n := ticks w in
  exists self' w',
    run (sequential key) (self, w) = (Ok tt, (self', w'))
    /\ _key_stack self' = _key_stack self
    /\ accum_time self' !! key =
       Some ((accumulated self key
              + (clock w (d + n)%nat - clock w (Nat.pred d + n)%nat))
             + (clock w (2 + d + n)%nat - clock w (1 + d + n)%nat))%float.
Proof.
  intros Hp. unfold sequential, run, perform, enter_readings.
  unfold bind at 1. rewrite call_eq.
  unfold bind at 1.
  rewrite (enter_eq _ _ (_key_stack self) key) by reflexivity.
  cbn [first_start_time set_key_stack].
  destruct (first_start_time self !! key) as [f0|] eqn:Hf.
  all: unfold bind at 1;
    rewrite (exit_eq _ _ (_key_stack self) key) by reflexivity.
  all: cbn [_pending_reset set_key_stack set_start_time set_first_start_time];
    rewrite Hp.
  all: unfold bind at 1; rewrite call_eq.
  all: unfold bind at 1;
    rewrite (enter_eq _ _ (_key_stack self) key) by reflexivity.
  all: cbn [first_start_time popped set_key_stack set_start_time
            set_first_start_time].
  all: try rewrite Hf; try rewrite lookup_insert_eq.
  all: unfold bind at 1;
    rewrite (exit_eq _ _ (_key_stack self) key) by reflexivity.
  all: cbn [_pending_reset popped set_key_stack set_start_time
            set_first_start_time]; rewrite Hp.
  all: eexists _, _; split; [reflexivity|].
  all: cbn [_key_stack start_time accum_time popped set_key_stack
            set_start_time set_first_start_time end_time tick ticks clock].
  all: split; [reflexivity|].
  all: rewrite !(dd_get_present _ _ _ (lookup_insert_eq _ _ _)).
  all: cbn [fst snd].
  all: rewrite !dd_iadd_lookup.
  all: rewrite ?(dd_get_present _ _ _ (lookup_insert_eq _ _ _)).
  all: unfold accumulated; cbn [fst snd default Nat.add Nat.pred].
  all: reflexivity.
Qed.

(** X6: a scope on one key inside a scope on another key: each key is
    credited with the time between its own entry and its own exit, so the
    outer key's time contains that of the inner one. *)
Theorem nested_distinct_keys_time_their_own_scope self w outer inner :
  outer <> inner ->
  _pending_reset self = false ->
  let da := enter_readings self outer in
  let db := enter_readings self inner in
  let n := ticks w in
  exists self' w',
    run (nested_pair outer inner) (self, w) = (Ok tt, (self', w'))
    /\ _key_stack self' = _key_stack self
    /\ accum_time self' !! inner =
       Some (accumulated self inner
             + (clock w (db + da + n)%nat - clock w (Nat.pred db + da + n)%nat))%float
    /\ accum_time self' !! outer =
       Some (accumulated self outer
             + (clock w (1 + db + da + n)%nat - clock w (Nat.pred da + n)%nat))%float.
Proof.
  intros Hne Hp. unfold nested_pair, run, perform, enter_readings.
  unfold bind at 1. rewrite call_eq.
  unfold bind at 1.
  rewrite (enter_eq _ _ (_key_stack self) outer) by reflexivity.
  cbn [first_start_time set_key_stack].
  destruct (first_start_time self !! outer) as [fa|] eqn:Hfa.
  all: unfold bind at 1; rewrite call_eq.
  all: unfold bind at 1;
    rewrite (enter_eq _ _ (_key_stack self ++ [outer]) inner) by reflexivity.
  all: cbn [first_start_time set_key_stack set_start_time set_first_start_time].
  all: rewrite ?(lookup_insert_ne _ _ _ _ Hne).
  all: destruct (first_start_time self !! inner) as [fb|] eqn:Hfb.
  all: unfold bind at 1;
    rewrite (exit_eq _ _ (_key_stack self ++ [outer]) inner) by reflexivity.
  all: cbn [_pending_reset set_key_stack set_start_time set_first_start_time];
    rewrite Hp.
  all: unfold bind at 1;
    rewrite (exit_eq _ _ (_key_stack self) outer) by reflexivity.
  all: cbn [_pending_reset popped set_key_stack set_start_time
            set_first_start_time]; rewrite Hp.
  all: eexists _, _; split; [reflexivity|].
  all: cbn [_key_stack start_time accum_time popped set_key_stack
            set_start_time set_first_start_time end_time tick ticks clock].
  all: split; [reflexivity|].
  all: rewrite !(dd_get_present _ _ _ (lookup_insert_eq _ _ _)).
  all: cbn [fst snd].
  all: assert (Houter : forall (m : gmap string float) x y,
                 dd_get (<[inner := x]> (<[outer := y]> m)) outer
                 = (y, <[inner := x]> (<[outer := y]> m)))
         by (intros m x y; apply dd_get_present;
             rewrite lookup_insert_ne by congruence; apply lookup_insert_eq).
  all: rewrite !Houter; cbn [fst snd].
  all: split.
  all: rewrite ?dd_iadd_lookup_ne by congruence.
  all: rewrite !dd_iadd_lookup.
  all: rewrite ?dd_iadd_lookup_ne by congruence.
  all: unfold accumulated; cbn [fst snd default Nat.add Nat.pred].
  all: reflexivity.
Qed.

End TimeDictRuns.

Lemma sequential_scopes_add_up_witness :
  TimeDict._pending_reset TimeDict.__init__ = false
  /\ exists self' w',
       TimeDict.run (sequential "a") (TimeDict.__init__, ticking_world)
       = (Ok tt, (self', w'))
       /\ TimeDict.accum_time self' !! "a" = Some 2%float.
Proof.
  split; [reflexivity|].
  destruct (sequential_scopes_add_up TimeDict.__init__ ticking_world "a" eq_refl)
    as (self' & w' & Hrun & _ & Hacc).
  exists self', w'. split; [exact Hrun|].
  rewrite Hacc. vm_compute. reflexivity.
Defined.

Lemma nested_distinct_keys_time_their_own_scope_witness :
  "a" <> "b"
  /\ TimeDict._pending_reset TimeDict.__init__ = false
  /\ exists self' w',
       TimeDict.run (nested_pair "a" "b") (TimeDict.__init__, ticking_world)
       = (Ok tt, (self', w'))
       /\ TimeDict.accum_time self' !! "b" = Some 1%float
       /\ TimeDict.accum_time self' !! "a" = Some 4%float.
Proof.
  assert (Hne : "a" <> "b") by discriminate.
  split; [exact Hne|]. split; [reflexivity|].
  destruct (nested_distinct_keys_time_their_own_scope
              TimeDict.__init__ ticking_world "a" "b" Hne eq_refl)
    as (self' & w' & Hrun & _ & Hb & Ha).
  exists self', w'. split; [exact Hrun|]. split.
  - rewrite Hb. vm_compute. reflexivity.
  - rewrite Ha. vm_compute. reflexivity.
Defined.

Section TimeDictInvariant.

Import TimeDict.

Lemma pending_only_when_open_step c self w :
  pending_only_when_open self ->
  pending_only_when_open (fst (snd (perform c (self, w)))).
Proof.
  intros Hinv. unfold pending_only_when_open in *.
  destruct (_key_stack self) as [|k0 l0] eqn:Hs.
  - (* no scope is open, so no reset is pending *)
    assert (Hp : _pending_reset self = false).
    { destruct (_pending_reset self); [now destruct Hinv|reflexivity]. }
    destruct c as [k| | |]; cbn [perform].
    + rewrite call_eq. cbn. intros _ E. now apply app_eq_nil in E as [_ ?].
    + rewrite enter_empty by exact Hs. cbn. now rewrite Hp.
    + rewrite exit_empty by exact Hs. cbn. now rewrite Hp.
    + rewrite reset_idle by exact Hs. cbn. discriminate.
  - assert (Hne : _key_stack self <> []) by (rewrite Hs; discriminate).
    destruct (exists_last Hne) as (rest & key & Hk).
    destruct c as [k| | |]; cbn [perform].
    + rewrite call_eq. cbn. intros _ E. now apply app_eq_nil in E as [_ ?].
    + rewrite (enter_eq _ _ _ _ Hk).
      destruct (first_start_time self !! key); cbn; now intros _.
    + rewrite (exit_eq _ _ _ _ Hk).
      destruct (_pending_reset self) eqn:Hp.
      * destruct rest; cbn; [discriminate|]. intros _. discriminate.
      * cbn. rewrite Hp. discriminate.
    + rewrite (reset_open _ _ _ _ Hk). cbn. now intros _.
Qed.

(** X7: whatever calls are made on a fresh [TimeDict], and wherever they
    stop, a reset is pending only while some scope is still open: the flag
    never outlives the stack. *)
Theorem reset_never_pending_without_open_scope cs w :
  pending_only_when_open (fst (snd (run cs (__init__, w)))).
Proof.
  assert (Hgen : forall cs self w,
            pending_only_when_open self ->
            pending_only_when_open (fst (snd (run cs (self, w))))).
  { clear. induction cs as [|c cs IH]; intros self w Hinv; [exact Hinv|].
    cbn [run]. unfold bind.
    pose proof (pending_only_when_open_step c self w Hinv) as Hstep.
    destruct (perform c (self, w)) as [[u|e] [self1 w1]]; cbn [fst snd] in *.
    - now apply IH.
    - exact Hstep. }
  apply Hgen. unfold pending_only_when_open. discriminate.
Qed.

End TimeDictInvariant.

(** ** TimeContext *)

Section TimeContextMore.

Context {ext : Externals}.

(** X8: [__exit__] on a [TimeContext] that was never entered fails with
    [AttributeError], for [self.start] does not exist yet; the clock has
    been read by then, but nothing is stored, printed or logged. *)
Theorem exit_before_enter_raises_AttributeError (self : TimeContext.t) (w : World) :
  TimeContext.start self = None ->
  TimeContext.__exit__ (self, w) = (Err AttributeError, (self, tick w)).
Proof.
  intros Hstart. unfold TimeContext.__exit__, TimeContext.now.
  unfold bind at 1. unfold bind at 1. cbn [perf_counter fst snd].
  unfold bind at 1. cbn [get_self fst snd TimeContext.base TimeContext.scoped].
  now rewrite Hstart.
Qed.

(** X9: [__exit__] on an entered [TimeContext] stores the clock reading
    minus [start] as [duration] and its readable form as
    [readable_duration], then reports
    ["{task_name} takes {readable_duration} ({duration:.2f}s)"]: as one
    line to the logger when there is one, otherwise coloured on standard
    output, followed by a newline and a flush. *)
Theorem exit_reports_the_duration (self : TimeContext.t) (w : World) (t0 : float) :
  TimeContext.start self = Some t0 ->
  let d := (clock w (ticks w) - t0)%float in
  let took :=
    TimeContext.task_name self +:+ " takes " +:+ get_readable_time d +:+ " (" +:+
    Text.format_fixed 2 d +:+ "s)" in
  TimeContext.__exit__ (self, w) =
  (Ok tt,
   (TimeContext.set_readable_duration (get_readable_time d)
      (TimeContext.set_duration d self),
    match TimeContext._logger self with
    | Some logger => logged logger took (tick w)
    | None =>
        out Flush (out (Write Text.LF) (out (Write (colored took None [])) (tick w)))
    end)).
Proof.
  intros Hstart. unfold TimeContext.__exit__, TimeContext.now.
  unfold bind at 1. unfold bind at 1. cbn [perf_counter fst snd].
  unfold bind at 1. cbn [get_self fst snd TimeContext.base TimeContext.scoped].
  rewrite Hstart.
  cbv [TimeContext.attr ret bind modify_self fst snd TimeContext.with_base
       TimeContext.base TimeContext.scoped TimeContext._exit_msg
       TimeContext.exit_msg get_self TimeContext.readable_duration
       TimeContext.set_readable_duration TimeContext.set_duration
       TimeContext._logger TimeContext.duration TimeContext.took
       TimeContext.task_name TimeContext.start print_flush stdout_write
       stdout_flush emit logger_info].
  destruct self as [task [logger|] dur st rd]; reflexivity.
Qed.

End TimeContextMore.

Lemma exit_before_enter_raises_AttributeError_witness :
  TimeContext.start (TimeContext.__init__ "loop" None) = None
  /\ TimeContext.__exit__ (ext := plain_externals)
       (scope := TimeContext.scoped (ext := plain_externals))
       (TimeContext.__init__ "loop" None, ticking_world)
     = (Err AttributeError, (TimeContext.__init__ "loop" None, tick ticking_world)).
Proof.
  split; [reflexivity|].
  apply (exit_before_enter_raises_AttributeError (ext := plain_externals)).
  reflexivity.
Defined.

Lemma exit_reports_the_duration_witness :
  TimeContext.start (TimeContext.mk "loop" (Some "jina") 0 (Some 0%float) None)
  = Some 0%float
  /\ log (snd (snd (TimeContext.__exit__ (ext := plain_externals)
                      (scope := TimeContext.scoped (ext := plain_externals))
                      (TimeContext.mk "loop" (Some "jina") 0 (Some 0%float) None,
                       tick (tick ticking_world)))))
     = [("jina", "loop takes 2 seconds (2.00s)")].
Proof.
  split; [reflexivity|].
  rewrite (exit_reports_the_duration (ext := plain_externals)
             (TimeContext.mk "loop" (Some "jina") 0 (Some 0%float) None)
             (tick (tick ticking_world)) 0%float eq_refl).
  vm_compute. reflexivity.
Defined.

(** ** ProgressBar *)

Section ProgressBarMore.

Import ProgressBar.
Context {ext : Externals}.

(** X11: a bar that is entered and left with no [update] in between prints
    no summary, whatever [message_on_done] is: after the entering render
    the exit only clears the line and flushes. *)
Theorem leaving_at_once_prints_no_summary description on_done w :
  exists self' w',
    (ProgressBar.__enter__ ;; ProgressBar.__exit__)
      (__init__ description on_done, w) = (Ok tt, (self', w'))
    /\ _completed_progress self' = 1%float
    /\ TimeContext.duration (context self')
       = (clock w (S (S (ticks w))) - clock w (ticks w))%float
    /\ stdout w' =
       stdout w ++
       [Write clear_line;
        Write (bar_line (Text.str_or (Some description) "") (mkBars 1 1 1) 40
                 false "-:--:--" "estimating..." "");
        Flush; Write clear_line; Flush].
Proof.
  unfold bind at 1. rewrite enter_fresh, exit_unfold.
  cbn [context TimeContext.start TimeContext.set_start]. cbn zeta.
  rewrite exit_msg_unfold.
  cbn [_last_rendered_progress set_context].
  change (PrimFloat.ltb 1 1) with false. cbv iota.
  eexists _, _. split; [reflexivity|]. do 2 (split; [reflexivity|]).
  cbn [stdout out tick]. now rewrite <- !app_assoc.
Qed.

(** X12: whether it draws, skips or raises, [update] has added [progress]
    to the counter and counted the call unless it is the entering one; it
    never touches the timer fields, [message_on_done] or the row width,
    and it never logs. *)
Theorem update_always_counts progress description message all_completed
    first_enter self w :
  let after := snd (update progress description message all_completed
                      first_enter (self, w)) in
  _completed_progress (fst after) = (_completed_progress self + progress)%float
  /\ _num_update_called (fst after)
     = _num_update_called self + (if first_enter then 0 else 1)
  /\ context (fst after) = context self
  /\ _on_done (fst after) = _on_done self
  /\ _bars_on_row (fst after) = _bars_on_row self
  /\ log (snd after) = log w.
Proof.
  cbn zeta. rewrite update_unfold. cbn zeta.
  destruct (throttled _ _ _);
    [|destruct (TimeContext.start (context self));
      [destruct (bar_counts _ _);
       [destruct (time_label _ _); [destruct (speed_label _ _ _)|]|]|]].
  all: repeat split.
Qed.

(** X13: after any [update], drawn or not, failed or not, the last
    rendered value is either the counter itself, or the old one with the
    counter less than 0.5 away from it: the display never lags by half a
    unit. *)
Theorem display_lags_less_than_half progress description message all_completed
    first_enter self w :
  let after := fst (snd (update progress description message all_completed
                           first_enter (self, w))) in
  _last_rendered_progress after = _completed_progress after
  \/ (_last_rendered_progress after = _last_rendered_progress self
      /\ all_completed = false
      /\ PrimFloat.ltb
           (PrimFloat.abs (_completed_progress after - _last_rendered_progress after))
           0.5 = true).
Proof.
  cbn zeta. rewrite update_unfold. cbn zeta.
  destruct (throttled _ _ _) eqn:Hthr.
  - right. cbn. unfold throttled in Hthr. cbn in Hthr.
    apply andb_true_iff in Hthr as [Hlt Hall].
    repeat split; [now destruct all_completed|exact Hlt].
  - left.
    destruct (TimeContext.start (context self));
      [destruct (bar_counts _ _);
       [destruct (time_label _ _); [destruct (speed_label _ _ _)|]|]|];
      reflexivity.
Qed.

(** X14: [update] called before the bar is entered fails with
    [AttributeError] as soon as it has to draw, for [self.start] does not
    exist yet; by then the counters are advanced and the line is cleared,
    and nothing is drawn in its place. *)
Theorem update_before_enter_raises_AttributeError progress description message
    all_completed first_enter self w :
  TimeContext.start (context self) = None ->
  throttled (_completed_progress self + progress)%float
    (_last_rendered_progress self) all_completed = false ->
  update progress description message all_completed first_enter (self, w) =
  (Err AttributeError,
   (set_last_rendered_progress (_completed_progress self + progress)%float
      (counted progress first_enter self),
    tick (out (Write clear_line) w))).
Proof.
  intros Hstart Hdraw. rewrite update_unfold. cbn zeta.
  cbn [counted set_completed_progress set_num_update_called
       _completed_progress _last_rendered_progress].
  now rewrite Hdraw, Hstart.
Qed.

Lemma advance_calls ps : forall self w self' w',
  advance ps (self, w) = (Ok tt, (self', w')) ->
  _num_update_called self' = _num_update_called self + Z.of_nat (length ps).
Proof.
  induction ps as [|p ps IH]; intros self w self' w' Hrun.
  - inversion Hrun; subst. cbn. lia.
  - cbn [advance] in Hrun. unfold bind at 1 in Hrun.
    pose proof (update_always_counts p None None false false self w) as Hc.
    cbn zeta in Hc.
    destruct (update p None None false false (self, w)) as [[u|e] [self1 w1]];
      [|discriminate].
    cbn [fst snd] in Hc. destruct Hc as (_ & Hn & _).
    rewrite (IH _ _ _ _ Hrun), Hn. cbn [length]. lia.
Qed.

(** X15: after entering a fresh bar, [_num_update_called] is the number of
    [update] calls made since, the throttled ones included and the
    entering render excluded. *)
Theorem calls_are_counted_even_when_throttled description on_done w ps self' w' :
  (ProgressBar.__enter__ ;; advance ps) (__init__ description on_done, w)
  = (Ok tt, (self', w')) ->
  _num_update_called self' = Z.of_nat (length ps).
Proof.
  unfold bind at 1. rewrite enter_fresh. intros Hadv.
  now rewrite (advance_calls _ _ _ _ _ Hadv).
Qed.

End ProgressBarMore.

Lemma update_before_enter_raises_AttributeError_witness :
  TimeContext.start
    (ProgressBar.context (ProgressBar.__init__ "W" ProgressBar.NoMessage)) = None
  /\ ProgressBar.throttled
       (ProgressBar._completed_progress
          (ProgressBar.__init__ "W" ProgressBar.NoMessage) + 1)%float
       (ProgressBar._last_rendered_progress
          (ProgressBar.__init__ "W" ProgressBar.NoMessage)) false = false
  /\ fst (ProgressBar.update (ext := plain_externals) 1 None None false false
            (ProgressBar.__init__ "W" ProgressBar.NoMessage, ticking_world))
     = Err AttributeError.
Proof.
  split; [reflexivity|]. split; [reflexivity|].
  rewrite (update_before_enter_raises_AttributeError (ext := plain_externals)
             1 None None false false
             (ProgressBar.__init__ "W" ProgressBar.NoMessage) ticking_world
             eq_refl eq_refl).
  reflexivity.
Defined.

Lemma calls_are_counted_even_when_throttled_witness :
  exists self' w',
    (ProgressBar.__enter__ (ext := plain_externals) ;;
     ProgressBar.advance (ext := plain_externals) [0.25; 0.25; 1]%float)
      (ProgressBar.__init__ "W" ProgressBar.NoMessage, ticking_world)
    = (Ok tt, (self', w'))
    /\ ProgressBar._num_update_called self' = 3.
Proof.
  pose (r := (ProgressBar.__enter__ (ext := plain_externals) ;;
              ProgressBar.advance (ext := plain_externals) [0.25; 0.25; 1]%float)
               (ProgressBar.__init__ "W" ProgressBar.NoMessage, ticking_world)).
  assert (Hr : r = (Ok tt, (fst (snd r), snd (snd r)))) by (vm_compute; reflexivity).
  exists (fst (snd r)), (snd (snd r)). split; [exact Hr|].
  exact (calls_are_counted_even_when_throttled (ext := plain_externals)
           "W" ProgressBar.NoMessage ticking_world [0.25; 0.25; 1]%float _ _ Hr).
Defined.

(** ** Floats that are no numbers *)

Lemma nan_is_not_small x y :
  Prim2SF x = S754_nan ->
  PrimFloat.ltb (PrimFloat.abs (x - y)) 0.5 = false.
Proof.
  intros Hx. rewrite FloatAxioms.ltb_spec, FloatAxioms.abs_spec, FloatAxioms.sub_spec, Hx.
  reflexivity.
Qed.

Lemma nan_has_no_bars x : Prim2SF x = S754_nan -> ProgressBar.bar_counts 40 x = Err ValueError.
Proof.
  intros Hx. unfold ProgressBar.bar_counts, ProgressBar.num_bars_of, float_rem.
  change (float_of_Z 40) with 40%float.
  change (PrimFloat.eqb 40 0) with false. cbv iota zeta.
  assert (Hmod : fmod x 40 = nan) by (unfold fmod; now rewrite Hx).
  rewrite Hmod. reflexivity.
Qed.

Section ProgressBarEdges.

Import ProgressBar.
Context {ext : Externals}.

(** X16: once the counter is not a number, every [update] of an entered
    bar raises [ValueError]: the throttle lets a NaN through, the bar count
    [nan % 40] stays NaN, and [math.floor] refuses it.  The line has been
    cleared by then and is not redrawn. *)
Theorem nan_progress_raises_ValueError progress description message all_completed
    first_enter self w t0 :
  _bars_on_row self = 40 ->
  TimeContext.start (context self) = Some t0 ->
  Prim2SF (_completed_progress self + progress)%float = S754_nan ->
  update progress description message all_completed first_enter (self, w) =
  (Err ValueError,
   (set_last_rendered_progress (_completed_progress self + progress)%float
      (counted progress first_enter self),
    tick (out (Write clear_line) w))).
Proof.
  intros Hrow Hstart Hnan. rewrite update_unfold. cbn zeta.
  cbn [counted set_completed_progress set_num_update_called
       _completed_progress _last_rendered_progress].
  unfold throttled. rewrite (nan_is_not_small _ _ Hnan). cbn [andb].
  now rewrite Hstart, Hrow, (nan_has_no_bars _ Hnan).
Qed.

(** X17: when the clock has not moved since [__enter__], the final render
    of [_exit_msg] divides by an elapsed time of zero: the exit raises
    [ZeroDivisionError] after clearing the line, and the summary is never
    printed. *)
Theorem summary_is_lost_when_no_time_elapsed self w t0 readable b :
  PrimFloat.ltb 1 (_last_rendered_progress self) = true ->
  TimeContext.readable_duration (context self) = Some readable ->
  TimeContext.start (context self) = Some t0 ->
  PrimFloat.eqb (clock w (ticks w) - t0) 0 = true ->
  bar_counts (_bars_on_row self) (_completed_progress self + 0)%float = Ok b ->
  exists self',
    exit_msg (self, w) = (Err ZeroDivisionError, (self', tick (out (Write clear_line) w)))
    /\ stdout (tick (out (Write clear_line) w)) = stdout w ++ [Write clear_line].
Proof.
  intros Hmany Hreadable Hstart Hzero Hbars.
  rewrite exit_msg_unfold, Hmany, Hreadable, update_unfold. cbn zeta.
  cbn [counted set_completed_progress set_num_update_called
       _completed_progress _last_rendered_progress _num_update_called].
  unfold throttled. rewrite andb_false_r, Hstart, Hbars.
  unfold time_label, speed_label, int_truediv.
  rewrite (timedelta_str_zero _ Hzero), Hzero.
  eexists. split; reflexivity.
Qed.

End ProgressBarEdges.

Lemma nan_progress_raises_ValueError_witness :
  ProgressBar._bars_on_row (entered_bar 0) = 40
  /\ TimeContext.start (ProgressBar.context (entered_bar 0)) = Some 0%float
  /\ Prim2SF (ProgressBar._completed_progress (entered_bar 0) + nan)%float = S754_nan
  /\ fst (ProgressBar.update (ext := plain_externals) nan None None false false
            (entered_bar 0, ticking_world))
     = Err ValueError.
Proof.
  do 3 (split; [reflexivity|]).
  rewrite (nan_progress_raises_ValueError (ext := plain_externals)
             nan None None false false (entered_bar 0) ticking_world 0%float
             eq_refl eq_refl eq_refl).
  reflexivity.
Defined.

Lemma summary_is_lost_when_no_time_elapsed_witness :
  PrimFloat.ltb 1 (ProgressBar._last_rendered_progress
                     (ProgressBar.mk
                        (TimeContext.mk "W" None 0 (Some 5%float) (Some "0 seconds"))
                        40 2 2 1 ProgressBar.NoMessage)) = true
  /\ PrimFloat.eqb (clock frozen_world (ticks frozen_world) - 5) 0 = true
  /\ fst (ProgressBar.exit_msg (ext := plain_externals)
            (ProgressBar.mk
               (TimeContext.mk "W" None 0 (Some 5%float) (Some "0 seconds"))
               40 2 2 1 ProgressBar.NoMessage,
             frozen_world))
     = Err ZeroDivisionError.
Proof.
  do 2 (split; [reflexivity|]).
  destruct (summary_is_lost_when_no_time_elapsed (ext := plain_externals)
              (ProgressBar.mk
                 (TimeContext.mk "W" None 0 (Some 5%float) (Some "0 seconds"))
                 40 2 2 1 ProgressBar.NoMessage)
              frozen_world 5%float "0 seconds" (ProgressBar.mkBars 2 2 1)
              eq_refl eq_refl eq_refl eq_refl eq_refl)
    as (self' & Hexit & _).
  rewrite Hexit. reflexivity.
Defined.

(** ** The profiling decorator, composed *)

Section ProfilingMore.

Context {ext : Externals} {O R : Type}.

Lemma arg_wrapper_returns (qualname : string) (func : M O R) self w r self2 w2 :
  func (self, tick (tick w)) = (Ok r, (self2, w2)) ->
  Profile.arg_wrapper qualname func (self, w) =
  (Ok r,
   (self2,
    logged Profile.default_logger
      (profile_line qualname (clock w2 (ticks w2) - clock w (ticks w))%float
         (memory_sample (maxrss w (S (ticks w))))
         (memory_sample (maxrss w2 (S (ticks w2)))))
      (tick (tick w2)))).
Proof.
  intros Hf. unfold Profile.arg_wrapper.
  unfold bind at 1. cbn [perf_counter fst snd].
  unfold bind at 1.
  change (Profile.used_memory 1 (self, tick w))
    with (Ok (memory_sample (maxrss w (S (ticks w)))), (self, tick (tick w))).
  cbv iota. unfold bind at 1. rewrite Hf. reflexivity.
Qed.

(** X18: a callable decorated twice, when it returns, is logged twice, the
    inner wrapper first; the outer wrapper's elapsed time spans the inner
    one's clock and memory readings, and the result and the receiver come
    through unchanged. *)
Theorem profiling_twice_logs_inner_first (outer inner : string) (func : M O R)
    self w r self2 w2 :
  func (self, Nat.iter 4 tick w) = (Ok r, (self2, w2)) ->
  exists w',
    Profile.arg_wrapper outer (Profile.arg_wrapper inner func) (self, w)
    = (Ok r, (self2, w'))
    /\ ticks w' = (4 + ticks w2)%nat
    /\ stdout w' = stdout w2
    /\ log w' =
       log w2 ++
       [(Profile.default_logger,
         profile_line inner
           (clock w2 (ticks w2) - clock w (2 + ticks w)%nat)%float
           (memory_sample (maxrss w (3 + ticks w)%nat))
           (memory_sample (maxrss w2 (1 + ticks w2)%nat)));
        (Profile.default_logger,
         profile_line outer
           (clock w2 (2 + ticks w2)%nat - clock w (ticks w))%float
           (memory_sample (maxrss w (1 + ticks w)%nat))
           (memory_sample (maxrss w2 (3 + ticks w2)%nat)))].
Proof.
  intros Hf.
  pose proof (arg_wrapper_returns inner func self (tick (tick w)) r self2 w2 Hf)
    as Hinner.
  rewrite (arg_wrapper_returns outer _ self w r _ _ Hinner).
  eexists. split; [reflexivity|]. cbn [ticks stdout log logged tick clock maxrss].
  repeat split. now rewrite <- app_assoc.
Qed.

End ProfilingMore.

Lemma profiling_twice_logs_inner_first_witness :
  busy false (tt, Nat.iter 4 tick ticking_world)
  = (Ok 7, (tt, Nat.iter 7 tick ticking_world))
  /\ exists w',
       Profile.arg_wrapper (ext := plain_externals) "outer"
         (Profile.arg_wrapper (ext := plain_externals) "inner" (busy false))
         (tt, ticking_world)
       = (Ok 7, (tt, w'))
       /\ ticks w' = 11%nat.
Proof.
  split; [reflexivity|].
  destruct (profiling_twice_logs_inner_first (ext := plain_externals)
              "outer" "inner" (busy false) tt ticking_world 7 tt
              (Nat.iter 7 tick ticking_world) eq_refl)
    as (w' & Hrun & Hticks & _).
  exists w'. split; [exact Hrun|exact Hticks].
Defined.
